(** * PICC store locator: the Notion export and the analysis report

    A shallow embedding of [src/scripts/analyze-notion-data.js] (the
    analysis script and the export script it is bundled with) and the
    properties of its pipeline: field accessors, product resolver, record
    transformer, filter stage and output assembler.

    JavaScript values are embedded as a data type of JSON-shaped values,
    since every value the scripts inspect comes out of [response.json()].
    A thrown [TypeError] is an explicit outcome of the [result] type. *)

From Stdlib Require Import List String Ascii ZArith Bool Lia Floats DecimalString.
Import ListNotations.
Open Scope string_scope.

(** ** JavaScript values *)

#[warnings="-register-all"]
Inductive value : Type :=
| JUndefined
| JNull
| JBool (b : bool)
| JNum (x : float)
| JStr (s : string)
| JArr (items : list value)
| JObj (fields : list (string * value)).

(** The only exception the modelled code can raise by itself. *)
Inductive exn : Type := TypeError.

Inductive result (A : Type) : Type :=
| Ok (a : A)
| Throw (e : exn).
Arguments Ok {A} a.
Arguments Throw {A} e.

Definition bind {A B} (m : result A) (k : A -> result B) : result B :=
  match m with
  | Ok a => k a
  | Throw e => Throw e
  end.

Declare Scope js_scope.
Delimit Scope js_scope with js.
Notation "x <- m ;; k" := (bind m (fun x => k))
  (at level 61, m at next level, right associativity) : js_scope.
Open Scope js_scope.

(** [arr.map(f)] with a callback that may throw: the first failure wins. *)
Fixpoint mapM {A B} (f : A -> result B) (l : list A) : result (list B) :=
  match l with
  | [] => Ok []
  | a :: rest => b <- f a ;; bs <- mapM f rest ;; Ok (b :: bs)
  end.

Definition returns {A} (m : result A) : bool :=
  match m with Ok _ => true | Throw _ => false end.

(** ToBoolean. *)
Definition truthy (v : value) : bool :=
  match v with
  | JUndefined | JNull => false
  | JBool b => b
  | JNum x => negb (PrimFloat.is_zero x || PrimFloat.is_nan x)
  | JStr s => negb (s =? "")
  | JArr _ | JObj _ => true
  end.

Definition nullish (v : value) : bool :=
  match v with
  | JUndefined | JNull => true
  | _ => false
  end.

(** [a || b] on values that are already evaluated. *)
Definition js_or (a b : value) : value := if truthy a then a else b.

Definition is_number (v : value) : bool :=
  match v with JNum _ => true | _ => false end.

Definition isArray (v : value) : bool :=
  match v with JArr _ => true | _ => false end.

(** [v === 'lit'] for a string literal. *)
Definition strict_eq_str (v : value) (lit : string) : bool :=
  match v with JStr s => s =? lit | _ => false end.

Fixpoint lookup (k : string) (fields : list (string * value)) : value :=
  match fields with
  | [] => JUndefined
  | (k', v) :: rest => if k =? k' then v else lookup k rest
  end.

Fixpoint has_own (k : string) (fields : list (string * value)) : bool :=
  match fields with
  | [] => false
  | (k', _) :: rest => (k =? k') || has_own k rest
  end.

(** [v[k]] / [v.k] for the property names the scripts read.  None of them
    is an array index, ["length"] or a member of a built-in prototype, so a
    primitive or an array answers [undefined]; reading a property of
    [undefined] or [null] throws. *)
Definition get (v : value) (k : string) : result value :=
  match v with
  | JUndefined | JNull => Throw TypeError
  | JObj fields => Ok (lookup k fields)
  | _ => Ok JUndefined
  end.

(** [v?.k]: never throws. *)
Definition opt_get (v : value) (k : string) : value :=
  match v with
  | JObj fields => lookup k fields
  | _ => JUndefined
  end.

(** [v?.[0]] *)
Definition opt_get0 (v : value) : value :=
  match v with
  | JArr (x :: _) => x
  | JStr (String c _) => JStr (String c "")
  | JObj fields => lookup "0" fields
  | _ => JUndefined
  end.

Fixpoint intercalate (sep : string) (l : list string) : string :=
  match l with
  | [] => ""
  | [s] => s
  | s :: rest => s ++ sep ++ intercalate sep rest
  end.

Section Host.

(** Number::toString of the host engine (shortest round-trip decimal). *)
Variable number_to_string : float -> string.

(** ToString on JSON-shaped values.  A parsed object has no callable own
    property: when it carries its own ["toString"] key, OrdinaryToPrimitive
    finds nothing that yields a primitive and throws. *)
Fixpoint ToString (v : value) : result string :=
  match v with
  | JUndefined => Ok "undefined"
  | JNull => Ok "null"
  | JBool b => Ok (if b then "true" else "false")
  | JNum x => Ok (number_to_string x)
  | JStr s => Ok s
  | JArr items =>
      parts <- (fix elements (l : list value) : result (list string) :=
                  match l with
                  | [] => Ok []
                  | x :: rest =>
                      s <- (if nullish x then Ok "" else ToString x) ;;
                      ss <- elements rest ;;
                      Ok (s :: ss)
                  end) items ;;
      Ok (intercalate "," parts)
  | JObj fields =>
      if has_own "toString" fields then Throw TypeError
      else Ok "[object Object]"
  end.

(** [arr.join(sep)]: [undefined] and [null] elements print as nothing. *)
Definition join (sep : string) (items : list value) : result string :=
  parts <- mapM (fun x => if nullish x then Ok "" else ToString x) items ;;
  Ok (intercalate sep parts).

(** ** Export script: configuration *)

Definition VALID_ACCOUNT_STATUSES : list string :=
  ["Customer"; "Customer Overdue"].

(** [Object.entries(PRODUCT_COLUMNS)], in insertion order. *)
Definition PRODUCT_COLUMNS : list (string * string) :=
  [ ("State of Mind 1G Customer", "State of Mind");
    ("O-Yeah 1G Customer", "O-Yeah");
    ("SUSHI Hash 1G Customer", "Sushi Hash");
    ("SMACK 1G", "SMACK");
    ("SMACK .5G", "SMACK");
    ("ICHI- #JUAN 1G Customer", "ICHI") ].

(** ** Export script: field accessors *)

Definition getPlainText (richTextArray : value) : result value :=
  if negb (truthy richTextArray) || negb (isArray richTextArray) then Ok JNull
  else
    match richTextArray with
    | JArr items =>
        texts <- mapM (fun rt => get rt "plain_text") items ;;
        joined <- join "" texts ;;
        Ok (js_or (JStr joined) JNull)
    | _ => Ok JNull
    end.

Definition getTitle (properties : value) : result value :=
  titleProp <- get properties "Dispensary Name" ;;
  if negb (truthy titleProp) then Ok JNull
  else
    ty <- get titleProp "type" ;;
    if negb (strict_eq_str ty "title") then Ok JNull
    else
      title <- get titleProp "title" ;;
      getPlainText title.

Definition getStatus (properties : value) : result value :=
  statusProp <- get properties "Account Status" ;;
  if negb (truthy statusProp) then Ok JNull
  else
    ty <- get statusProp "type" ;;
    if negb (strict_eq_str ty "status") then Ok JNull
    else
      status <- get statusProp "status" ;;
      Ok (js_or (opt_get status "name") JNull).

Definition getRollupDate (properties : value) (propName : string) : result value :=
  prop <- get properties propName ;;
  if negb (truthy prop) then Ok JNull
  else
    ty <- get prop "type" ;;
    if negb (strict_eq_str ty "rollup") then Ok JNull
    else
      rollup <- get prop "rollup" ;;
      rty <- get rollup "type" ;;
      if strict_eq_str rty "date" then
        date <- get rollup "date" ;;
        if truthy date then
          start <- get date "start" ;;
          Ok (js_or start JNull)
        else Ok JNull
      else Ok JNull.

Definition getMapLocation (properties : value) : result value :=
  placeProp <- get properties "Map Location" ;;
  if negb (truthy placeProp) then Ok JNull
  else
    ty <- get placeProp "type" ;;
    if negb (strict_eq_str ty "place") then Ok JNull
    else
      place <- get placeProp "place" ;;
      if negb (truthy place) then Ok JNull
      else
        lat <- get place "lat" ;;
        lon <- get place "lon" ;;
        if negb (is_number lat) || negb (is_number lon) then Ok JNull
        else Ok (JObj [("lat", lat); ("lng", lon)]).

(** ** Export script: product resolver *)

(** [products.add(displayName)] on a [Set], kept in insertion order. *)
Definition set_add (x : string) (s : list string) : list string :=
  if existsb (String.eqb x) s then s else s ++ [x].

Fixpoint getProducts_loop (properties : value) (entries : list (string * string))
    (products : list string) : result (list string) :=
  match entries with
  | [] => Ok products
  | (propName, displayName) :: rest =>
      date <- getRollupDate properties propName ;;
      getProducts_loop properties rest
        (if truthy date then set_add displayName products else products)
  end.

Definition getProducts (properties : value) : result (list string) :=
  getProducts_loop properties PRODUCT_COLUMNS [].

(** ** Export script: record transformer *)

Record Store : Type := mkStore {
  id : value;
  name : value;
  address : value;
  lat : value;
  lng : value;
  status : value;
  lastOrderDate : value;
  lastDeliveryDate : value;
  products : list string
}.

(** The template literal [`${address}, ${city}`]. *)
Definition address_with_city (address city : value) : result value :=
  a <- ToString address ;;
  c <- ToString city ;;
  Ok (JStr (a ++ ", " ++ c)).

Definition transformPage (page : value) : result Store :=
  props <- get page "properties" ;;
  name <- getTitle props ;;
  addressProp <- get props "Address" ;;
  address <- getPlainText (opt_get addressProp "rich_text") ;;
  cityProp <- get props "City" ;;
  city <- getPlainText (opt_get cityProp "rich_text") ;;
  status <- getStatus props ;;
  lastOrderDate <- getRollupDate props "Last Order Date" ;;
  lastDeliveryDate <- getRollupDate props "Last Delivery Date" ;;
  location <- getMapLocation props ;;
  products <- getProducts props ;;
  id <- get page "id" ;;
  fullAddress <- (if truthy address
                  then (if truthy city then address_with_city address city
                        else Ok address)
                  else Ok JNull) ;;
  Ok {| id := id;
        name := name;
        address := fullAddress;
        lat := js_or (opt_get location "lat") JNull;
        lng := js_or (opt_get location "lng") JNull;
        status := status;
        lastOrderDate := lastOrderDate;
        lastDeliveryDate := lastDeliveryDate;
        products := products |}.

(** ** Export script: filter stage *)

(** [VALID_ACCOUNT_STATUSES.includes(v)]: SameValueZero against strings. *)
Definition includes (l : list string) (v : value) : bool :=
  match v with
  | JStr s => existsb (String.eqb s) l
  | _ => false
  end.

Definition publishable (store : Store) : bool :=
  if negb (truthy (name store)) || negb (truthy (lat store))
     || negb (truthy (lng store))
  then false
  else if negb (includes VALID_ACCOUNT_STATUSES (status store)) then false
  else true.

Definition filterStores (stores : list Store) : list Store :=
  filter publishable stores.

(** ** Export script: output assembler *)

Record OutputStore : Type := mkOutputStore {
  out_id : value;
  out_name : value;
  out_address : value;
  out_lat : value;
  out_lng : value;
  out_products : list string;
  lastDelivery : value
}.

Record ExportDocument : Type := mkExportDocument {
  generated : string;
  count : nat;
  stores : list OutputStore
}.

Definition outputStore (store : Store) : OutputStore :=
  {| out_id := id store;
     out_name := name store;
     out_address := address store;
     out_lat := lat store;
     out_lng := lng store;
     out_products := products store;
     lastDelivery := js_or (lastDeliveryDate store) (lastOrderDate store) |}.

(** [exportStores], with the fetched pages and the timestamp of
    [new Date().toISOString()] as inputs. *)
Definition exportStores (pages : list value) (now : string) : result ExportDocument :=
  allStores <- mapM transformPage pages ;;
  let filteredStores := filterStores allStores in
  let outputStores := map outputStore filteredStores in
  Ok {| generated := now;
        count := List.length outputStores;
        stores := outputStores |}.

End Host.

(** ** Analysis script *)

Module Analysis.

Record RecentCustomer : Type := mkRecentCustomer {
  rc_name : value;
  rc_lastOrder : value;
  rc_lat : value;
  rc_lng : value
}.

(** The counters and the list that [main] accumulates.  The histogram
    [statuses] is left out: nothing below reads it, and its only effect on
    the loop, the conversion of its key, is part of [analyzePage]. *)
Record Report : Type := mkReport {
  withCoords : nat;
  withOrders : nat;
  customerWithCoords : nat;
  recentCustomers : list RecentCustomer
}.

Definition initial : Report :=
  {| withCoords := 0; withOrders := 0; customerWithCoords := 0;
     recentCustomers := [] |}.

(** [v?.rollup?.date?.start] *)
Definition rollup_start (v : value) : value :=
  opt_get (opt_get (opt_get v "rollup") "date") "start".

(** The expressions of the loop body, on a property bag [props] that is
    neither [undefined] nor [null] (otherwise the first read throws). *)
Definition status_of (props : value) : value :=
  js_or (opt_get (opt_get (opt_get props "Account Status") "status") "name")
        (JStr "Unknown").

Definition mapLoc_of (props : value) : value :=
  opt_get (opt_get props "Map Location") "place".


Definition lastOrder_of (props : value) : value :=
  rollup_start (opt_get props "Last Order Date").

Definition lastDelivery_of (props : value) : value :=
  rollup_start (opt_get props "Last Delivery Date").

Definition name_of (props : value) : value :=
  js_or (opt_get (opt_get0 (opt_get (opt_get props "Dispensary Name") "title"))
                 "plain_text")
        (JStr "Unknown").

(** What [recentCustomers.push] appends for such a bag. *)
Definition entry_of (props : value) : RecentCustomer :=
  {| rc_name := name_of props;
     rc_lastOrder := js_or (lastDelivery_of props) (lastOrder_of props);
     rc_lat := opt_get (mapLoc_of props) "lat";
     rc_lng := opt_get (mapLoc_of props) "lon" |}.

Section Run.

Variable number_to_string : float -> string.

(** The time value of [new Date(v)]: [None] when it is NaN (Invalid Date);
    the constructor throws when [v] has no primitive value. *)
Variable Date_time : value -> result (option Z).

(** The time value of [sixtyDaysAgo], fixed before the loop starts;
    [None] when it is NaN. *)
Variable sixtyDaysAgo : option Z.

(** [t >= sixtyDaysAgo] on time values: a comparison with NaN is false. *)
Definition not_before_limit (t : option Z) : bool :=
  match t, sixtyDaysAgo with
  | Some ms, Some limit => (limit <=? ms)%Z
  | _, _ => false
  end.

(** [orderDate && new Date(orderDate) >= sixtyDaysAgo], as a condition. *)
Definition is_recent (orderDate : value) : result bool :=
  if truthy orderDate
  then t <- Date_time orderDate ;; Ok (not_before_limit t)
  else Ok false.

(** One turn of the [for (const page of pages)] loop. *)
Definition analyzePage (st : Report) (page : value) : result Report :=
  props <- get page "properties" ;;
  accountStatus <- get props "Account Status" ;;
  let status := js_or (opt_get (opt_get accountStatus "status") "name")
                      (JStr "Unknown") in
  _ <- ToString number_to_string status ;;
  mapLocation <- get props "Map Location" ;;
  let mapLoc := opt_get mapLocation "place" in
  hasCoords <- (if truthy mapLoc
                then l <- get mapLoc "lat" ;; Ok (is_number l)
                else Ok false) ;;
  let withCoords' := if hasCoords then S (withCoords st) else withCoords st in
  lastOrderProp <- get props "Last Order Date" ;;
  let lastOrder := rollup_start lastOrderProp in
  lastDeliveryProp <- get props "Last Delivery Date" ;;
  let lastDelivery := rollup_start lastDeliveryProp in
  let hasOrder := js_or lastOrder lastDelivery in
  let withOrders' := if truthy hasOrder then S (withOrders st) else withOrders st in
  if strict_eq_str status "Customer" && hasCoords then
    let orderDate := js_or lastDelivery lastOrder in
    recent <- is_recent orderDate ;;
    if recent then
      nameProp <- get props "Dispensary Name" ;;
      let name := js_or (opt_get (opt_get0 (opt_get nameProp "title")) "plain_text")
                        (JStr "Unknown") in
      l <- get mapLoc "lat" ;;
      g <- get mapLoc "lon" ;;
      Ok {| withCoords := withCoords';
            withOrders := withOrders';
            customerWithCoords := S (customerWithCoords st);
            recentCustomers :=
              recentCustomers st ++
              [ {| rc_name := name; rc_lastOrder := orderDate;
                   rc_lat := l; rc_lng := g |} ] |}
    else
      Ok {| withCoords := withCoords';
            withOrders := withOrders';
            customerWithCoords := S (customerWithCoords st);
            recentCustomers := recentCustomers st |}
  else
    Ok {| withCoords := withCoords';
          withOrders := withOrders';
          customerWithCoords := customerWithCoords st;
          recentCustomers := recentCustomers st |}.

Fixpoint loop (st : Report) (pages : list value) : result Report :=
  match pages with
  | [] => Ok st
  | page :: rest => st' <- analyzePage st page ;; loop st' rest
  end.

(** [main], from the fetched pages to the figures it prints. *)
Definition main (pages : list value) : result Report := loop initial pages.

End Run.

End Analysis.

(** ** Concrete hosts for closed examples *)

(** The examples below never print a number, so any formatter serves. *)
Definition plain_number_to_string (x : float) : string := "NaN".

Definition digit (c : ascii) : option Z :=
  let n := Z.of_N (N_of_ascii c) in
  if ((48 <=? n) && (n <=? 57))%Z then Some (n - 48)%Z else None.

Fixpoint digits (acc : Z) (s : string) : option Z :=
  match s with
  | "" => Some acc
  | String c rest =>
      match digit c with
      | Some d => digits (10 * acc + d)%Z rest
      | None => None
      end
  end.

Definition is_leap (y : Z) : bool :=
  ((y mod 4 =? 0) && (negb (y mod 100 =? 0) || (y mod 400 =? 0)))%Z.

Definition days_in_month (y m : Z) : Z :=
  if (m =? 2)%Z then (if is_leap y then 29 else 28)%Z
  else if ((m =? 4) || (m =? 6) || (m =? 9) || (m =? 11))%Z then 30%Z
  else 31%Z.

(** Days between 1970-01-01 and the civil date [y]-[m]-[d]. *)
Definition days_from_civil (y m d : Z) : Z :=
  let y' := (if m <=? 2 then y - 1 else y)%Z in
  let era := (y' / 400)%Z in
  let yoe := (y' - era * 400)%Z in
  let mp := (if m >? 2 then m - 3 else m + 9)%Z in
  let doy := ((153 * mp + 2) / 5 + d - 1)%Z in
  let doe := (yoe * 365 + yoe / 4 - yoe / 100 + doy)%Z in
  (era * 146097 + doe - 719468)%Z.

(** The time value of [new Date(v)] for a date-only ISO string
    [YYYY-MM-DD] (midnight UTC); anything else is left Invalid here. *)
Definition date_only (v : value) : option Z :=
  match v with
  | JStr s =>
      if (Nat.eqb (String.length s) 10)
         && (substring 4 1 s =? "-") && (substring 7 1 s =? "-")
      then
        match digits 0 (substring 0 4 s), digits 0 (substring 5 2 s),
              digits 0 (substring 8 2 s) with
        | Some y, Some m, Some d =>
            if ((1 <=? m) && (m <=? 12) && (1 <=? d)
                && (d <=? days_in_month y m))%Z
            then Some (86400000 * days_from_civil y m d)%Z
            else None
        | _, _, _ => None
        end
      else None
  | _ => None
  end.

Definition date_only_time (v : value) : result (option Z) := Ok (date_only v).

(** ** Analysis script: the limit of sixty days *)

(** The date arithmetic of ECMAScript on time values (milliseconds since
    1970-01-01T00:00:00Z), as far as [getDate] and [setDate] use it. *)
Definition msPerDay : Z := 86400000.

Definition Day (t : Z) : Z := (t / msPerDay)%Z.

Definition TimeWithinDay (t : Z) : Z := (t mod msPerDay)%Z.

(** The civil date (year, month from 1, day from 1) of a day number. *)
Definition civil_from_days (n : Z) : Z * Z * Z :=
  let z := (n + 719468)%Z in
  let era := (z / 146097)%Z in
  let doe := (z - era * 146097)%Z in
  let yoe := ((doe - doe / 1460 + doe / 36524 - doe / 146096) / 365)%Z in
  let doy := (doe - (365 * yoe + yoe / 4 - yoe / 100))%Z in
  let mp := ((5 * doy + 2) / 153)%Z in
  let d := (doy - (153 * mp + 2) / 5 + 1)%Z in
  let m := (if mp <? 10 then mp + 3 else mp - 9)%Z in
  let y := (yoe + era * 400)%Z in
  ((if m <=? 2 then y + 1 else y)%Z, m, d).

Definition YearFromTime (t : Z) : Z := fst (fst (civil_from_days (Day t))).

(** Months count from 0 in ECMAScript. *)
Definition MonthFromTime (t : Z) : Z := (snd (fst (civil_from_days (Day t))) - 1)%Z.

Definition DateFromTime (t : Z) : Z := snd (civil_from_days (Day t)).

(** The day number of the first of the month, plus [date - 1]; a month or
    a date out of range carries over. *)
Definition MakeDay (year month date : Z) : Z :=
  (days_from_civil (year + month / 12) (month mod 12 + 1) 1 + date - 1)%Z.

Definition MakeDate (day time : Z) : Z := (day * msPerDay + time)%Z.

(** A time value out of the range of [Date] is NaN. *)
Definition TimeClip (t : Z) : option Z :=
  if (Z.abs t <=? 8640000000000000)%Z then Some t else None.

Section Clock.

(** The offset of the host's time zone in milliseconds: at a UTC time
    value ([true]) or at a local one ([false]). *)
Variable LocalTZA : Z -> bool -> Z.

Definition LocalTime (t : Z) : Z := (t + LocalTZA t true)%Z.

Definition UTC (t : Z) : Z := (t - LocalTZA t false)%Z.

(** [d.getDate()] for a date with time value [tv]. *)
Definition getDate (tv : Z) : Z := DateFromTime (LocalTime tv).

(** The time value of [d] after [d.setDate(dt)]. *)
Definition setDate (tv dt : Z) : option Z :=
  let t := LocalTime tv in
  TimeClip (UTC (MakeDate (MakeDay (YearFromTime t) (MonthFromTime t) dt)
                          (TimeWithinDay t))).

(** [const sixtyDaysAgo = new Date();
     sixtyDaysAgo.setDate(sixtyDaysAgo.getDate() - 60);]
    for a script started at the time value [now]. *)
Definition sixtyDaysAgo_at (now : Z) : option Z :=
  setDate now (getDate now - 60)%Z.

End Clock.

(** The analysis script's [main] from the clock reading to the figures. *)
Definition run_report (number_to_string : float -> string)
    (Date_time : value -> result (option Z)) (LocalTZA : Z -> bool -> Z)
    (now : Z) (pages : list value) : result Analysis.Report :=
  Analysis.main number_to_string Date_time (sixtyDaysAgo_at LocalTZA now) pages.

(** A host whose time zone is UTC, and a run at 2024-03-01T00:00:00Z. *)
Definition utc_zone (t : Z) (is_utc : bool) : Z := 0%Z.

Definition run_2024_03_01 : Z := 1709251200000.

(** ** Sample records, shaped as the Notion API returns them *)

Definition title_prop (s : string) : value :=
  JObj [("type", JStr "title");
        ("title", JArr [JObj [("plain_text", JStr s)]])].

Definition rich_text_prop (s : string) : value :=
  JObj [("type", JStr "rich_text");
        ("rich_text", JArr [JObj [("plain_text", JStr s)]])].

Definition status_prop (s : string) : value :=
  JObj [("type", JStr "status"); ("status", JObj [("name", JStr s)])].

Definition place_prop (la lo : float) : value :=
  JObj [("type", JStr "place");
        ("place", JObj [("lat", JNum la); ("lon", JNum lo)])].

Definition rollup_date_prop (s : string) : value :=
  JObj [("type", JStr "rollup");
        ("rollup", JObj [("type", JStr "date");
                         ("date", JObj [("start", JStr s)])])].

Definition page_of (i : string) (props : list (string * value)) : value :=
  JObj [("id", JStr i); ("properties", JObj props)].

(** A complete customer record: delivered long ago, ordered recently. *)
Definition acme_props (st : string) : list (string * value) :=
  [ ("Dispensary Name", title_prop "Acme");
    ("Address", rich_text_prop "1 Main St");
    ("City", rich_text_prop "Oakland");
    ("Account Status", status_prop st);
    ("Last Order Date", rollup_date_prop "2024-02-20");
    ("Last Delivery Date", rollup_date_prop "2023-01-01");
    ("Map Location", place_prop 37.75 (-122.25));
    ("SMACK 1G", rollup_date_prop "2024-02-20");
    ("SMACK .5G", rollup_date_prop "2023-01-01");
    ("O-Yeah 1G Customer", rollup_date_prop "2023-01-01") ].

Definition acme_page : value := page_of "p-acme" (acme_props "Customer").

Definition lead_page : value := page_of "p-lead" (acme_props "Lead").

(** A customer on the equator and the prime meridian. *)
Definition zero_page : value :=
  page_of "p-zero"
    [ ("Dispensary Name", title_prop "Null Island Dispensary");
      ("Account Status", status_prop "Customer");
      ("Map Location", place_prop 0 0) ].

(** A customer on the equator, away from the prime meridian. *)
Definition equator_page : value :=
  page_of "p-equator"
    [ ("Dispensary Name", title_prop "Mitad del Mundo");
      ("Account Status", status_prop "Customer");
      ("Map Location", place_prop 0 (-78.5)) ].

(** A record with a city and no street. *)
Definition city_only_page : value :=
  page_of "p-city"
    [ ("Dispensary Name", title_prop "Corner Shop");
      ("City", rich_text_prop "Oakland");
      ("Account Status", status_prop "Customer");
      ("Map Location", place_prop 37.75 (-122.25)) ].

(** Malformed inputs: a rich-text array holding [null], and a rollup
    property without its nested [rollup] object. *)
Definition null_rich_text : value := JArr [JNull].

Definition bare_rollup_props : value :=
  JObj [("Last Order Date", JObj [("type", JStr "rollup")])].

(** 2024-01-01T00:00:00Z, sixty days before a run on 2024-03-01. *)
Definition limit_2024_01_01 : option Z := Some 1704067200000%Z.

(** A customer whose delivery is dated six years after the sample run. *)
Definition future_page : value :=
  page_of "p-future"
    [ ("Dispensary Name", title_prop "Tomorrow");
      ("Account Status", status_prop "Customer");
      ("Last Delivery Date", rollup_date_prop "2030-01-01");
      ("Map Location", place_prop 37.75 (-122.25)) ].

(** 2023-01-01T00:00:00Z. *)
Definition limit_2023_01_01 : option Z := Some 1672531200000%Z.

(** A record whose order-date rollup lacks its nested object. *)
Definition broken_page : value :=
  page_of "p-broken"
    [ ("Dispensary Name", title_prop "Broken");
      ("Account Status", status_prop "Customer");
      ("Last Order Date", JObj [("type", JStr "rollup")]);
      ("Map Location", place_prop 37.75 (-122.25)) ].

(** What the export makes of the sample records. *)
Definition acme_store (i st : string) : Store :=
  {| id := JStr i;
     name := JStr "Acme";
     address := JStr "1 Main St, Oakland";
     lat := JNum 37.75;
     lng := JNum (-122.25);
     status := JStr st;
     lastOrderDate := JStr "2024-02-20";
     lastDeliveryDate := JStr "2023-01-01";
     products := ["O-Yeah"; "SMACK"] |}.

Definition city_only_store : Store :=
  {| id := JStr "p-city";
     name := JStr "Corner Shop";
     address := JNull;
     lat := JNum 37.75;
     lng := JNum (-122.25);
     status := JStr "Customer";
     lastOrderDate := JNull;
     lastDeliveryDate := JNull;
     products := [] |}.

Definition acme_document (now : string) : ExportDocument :=
  {| generated := now;
     count := 1;
     stores := [outputStore (acme_store "p-acme" "Customer")] |}.


(** ** The specification's wording, for comparison with the code *)

(** Stated from the specification: the address is street and city joined
    when both are present, whichever one is present otherwise, and absent
    when neither is.  [street] and [city] are the joined rich texts. *)
Definition claimed_address (street city : value) : value :=
  match street, city with
  | JStr a, JStr c => JStr (a ++ ", " ++ c)
  | JStr a, _ => JStr a
  | _, JStr c => JStr c
  | _, _ => JNull
  end.

Definition address_claim (fmt : float -> string) (page : value) : Prop :=
  forall props street city s,
    get page "properties" = Ok props ->
    getPlainText fmt (opt_get (opt_get props "Address") "rich_text") = Ok street ->
    getPlainText fmt (opt_get (opt_get props "City") "rich_text") = Ok city ->
    transformPage fmt page = Ok s ->
    address s = claimed_address street city.





(** ** The scripts at run time: requests, console, file *)

(** What a run can end on: a [TypeError] of the script's own reads, the
    [Error] that [fetchAllPages] builds, or a rejection by the host
    (network, response body, file system). *)
Inductive thrown : Type :=
| Uncaught (e : exn)
| ApiError (message : string)
| Rejected (reason : string).

Inductive outcome (A : Type) : Type :=
| Returned (a : A)
| Raised (t : thrown).
Arguments Returned {A} a.
Arguments Raised {A} t.

(** A call of [fetch]: the URL, the three headers and the two members of
    the JSON body.  [start_cursor] is [undefined] when the body leaves the
    key out. *)
Record Request : Type := mkRequest {
  url : string;
  method : string;
  authorization : string;
  notion_version : string;
  content_type : string;
  start_cursor : value;
  page_size : nat
}.

(** What the scripts use of a [Response]: [ok], [status] and the outcomes
    of [text()] and [json()]. *)
Record Response : Type := mkResponse {
  ok : bool;
  http_status : float;
  text : outcome string;
  json : outcome value
}.

(** What a script does to the outside, call by call: [fetch],
    [console.log], [console.error] with a line or with a label and the
    message of an error, [fs.writeFileSync] and [process.exit].
    [WriteFile] stands for the call, whether it returns or throws. *)
Inductive event : Type :=
| Fetch (request : Request)
| ConsoleLog (line : string)
| ConsoleError (line : string)
| ConsoleErrorMessage (label : string) (error : thrown)
| WriteFile (path content : string)
| Exit (code : Z).

Fixpoint requests_of (trace : list event) : list Request :=
  match trace with
  | [] => []
  | Fetch r :: rest => r :: requests_of rest
  | _ :: rest => requests_of rest
  end.

(** [`${n}`] for a length. *)
Definition nat_to_string (n : nat) : string :=
  NilEmpty.string_of_uint (Nat.to_uint n).

(** [`${v}`] for an environment variable, which is a string or [undefined]. *)
Definition env_to_string (v : option string) : string :=
  match v with
  | Some s => s
  | None => "undefined"
  end.

(** [...v] in an argument list: arrays and strings are iterable, a string
    through its characters; nothing else among JSON-shaped values is. *)
Definition spread (v : value) : result (list value) :=
  match v with
  | JArr items => Ok items
  | JStr s => Ok (map (fun c => JStr (String c "")) (list_ascii_of_string s))
  | _ => Throw TypeError
  end.

(** The members of a response body that the pagination loop reads, in the
    order it reads them. *)
Definition read_page (data : value) : result (list value * value * value) :=
  results <- get data "results" ;;
  items <- spread results ;;
  hasMore <- get data "has_more" ;;
  nextCursor <- get data "next_cursor" ;;
  Ok (items, hasMore, nextCursor).

Definition DEFAULT_DATABASE_ID : string := "267a86d999988078adcac47c306ab8ba".

Definition query_url (databaseId : string) : string :=
  "https://api.notion.com/v1/databases/" ++ databaseId ++ "/query".

Definition newline : string := String "010"%char "".

Section Runtime.

Variable number_to_string : float -> string.

(** [process.env.NOTION_API_TOKEN] and [process.env.NOTION_DATABASE_ID]. *)
Variable env_token : option string.
Variable env_database_id : option string.

(** The remote API: the outcome of a call of [fetch], given the calls made
    before it, oldest first. *)
Variable fetch : list Request -> Request -> outcome Response.

(** [new Date().toISOString()] at the time the document is assembled. *)
Variable now : string.

(** [JSON.stringify(data, null, 2)]. *)
Variable stringify : ExportDocument -> string.

(** [path.join(import.meta.dirname, '..', 'stores.json')], which throws
    where [import.meta.dirname] is not defined. *)
Variable outputPath : outcome string.

(** The outcome of a call [fs.writeFileSync(path, content)]: [None] when
    it returns, [Some t] when it throws [t], in which case the file may be
    missing, truncated or partly written. *)
Variable writeFileSync : string -> string -> option thrown.

(** [process.env.NOTION_DATABASE_ID || '267a...']. *)
Definition NOTION_DATABASE_ID : string :=
  match env_database_id with
  | Some s => if s =? "" then DEFAULT_DATABASE_ID else s
  | None => DEFAULT_DATABASE_ID
  end.

Definition NOTION_VERSION : string := "2022-06-28".

Definition query (databaseId : string) (nextCursor : value) : Request :=
  {| url := query_url databaseId;
     method := "POST";
     authorization := "Bearer " ++ env_to_string env_token;
     notion_version := NOTION_VERSION;
     content_type := "application/json";
     start_cursor := nextCursor;
     page_size := 100 |}.

(** The [while (hasMore)] loop of the export script's [fetchAllPages], one
    unit of [fuel] per turn; [None] when the fuel runs out. *)
Fixpoint fetch_loop (fuel : nat) (trace : list event) (pages : list value)
    (nextCursor : value) : option (list event * outcome (list value)) :=
  match fuel with
  | O => None
  | S fuel' =>
      let request := query NOTION_DATABASE_ID nextCursor in
      let trace1 := (trace ++ [Fetch request])%list in
      match fetch (requests_of trace) request with
      | Raised t => Some (trace1, Raised t)
      | Returned response =>
          if negb (ok response) then
            match text response with
            | Raised t => Some (trace1, Raised t)
            | Returned error =>
                Some (trace1,
                      Raised (ApiError
                                ("Notion API error: "
                                 ++ number_to_string (http_status response)
                                 ++ " - " ++ error)))
            end
          else
            match json response with
            | Raised t => Some (trace1, Raised t)
            | Returned data =>
                match read_page data with
                | Throw e => Some (trace1, Raised (Uncaught e))
                | Ok (items, hasMore, nextCursor') =>
                    let pages' := (pages ++ items)%list in
                    let trace2 :=
                      (trace1 ++ [ConsoleLog ("Fetched "
                                              ++ nat_to_string (List.length pages')
                                              ++ " pages...")])%list in
                    if truthy hasMore
                    then fetch_loop fuel' trace2 pages' nextCursor'
                    else Some (trace2, Returned pages')
                end
            end
      end
  end.

Definition fetchAllPages (fuel : nat) (trace : list event)
  : option (list event * outcome (list value)) :=
  fetch_loop fuel trace [] JUndefined.

(** [exportStores()] as the script runs it: console, requests and
    result. *)
Definition exportStores_run (fuel : nat) (trace : list event)
  : option (list event * outcome ExportDocument) :=
  let trace0 :=
    (trace ++
     [ConsoleLog "Starting Notion export...";
      ConsoleLog ("Database ID: " ++ NOTION_DATABASE_ID);
      ConsoleLog ("Filter: Account Status in ["
                  ++ intercalate ", " VALID_ACCOUNT_STATUSES ++ "]");
      ConsoleLog "Filter: Must have Map Location coordinates";
      ConsoleLog ""])%list in
  match fetchAllPages fuel trace0 with
  | None => None
  | Some (trace1, Raised t) => Some (trace1, Raised t)
  | Some (trace1, Returned pages) =>
      let trace2 :=
        (trace1 ++ [ConsoleLog (newline ++ "Total pages fetched: "
                               ++ nat_to_string (List.length pages))])%list in
      match mapM (transformPage number_to_string) pages with
      | Throw e => Some (trace2, Raised (Uncaught e))
      | Ok allStores =>
          let filteredStores := filterStores allStores in
          let trace3 :=
            (trace2 ++ [ConsoleLog ("Stores after filtering: "
                                   ++ nat_to_string (List.length filteredStores))])%list in
          let outputStores := map outputStore filteredStores in
          Some (trace3,
                Returned {| generated := now;
                            count := List.length outputStores;
                            stores := outputStores |})
      end
  end.

(** The export script's [main]: everything the process does, in order.  A
    run that ends without [Exit] ends with exit code 0. *)
Definition main (fuel : nat) : option (list event) :=
  match env_token with
  | None | Some "" =>
      Some [ConsoleError "Error: NOTION_API_TOKEN environment variable is required";
            Exit 1]
  | Some _ =>
      match exportStores_run fuel [] with
      | None => None
      | Some (trace, Raised t) =>
          Some (trace ++ [ConsoleErrorMessage "Export failed:" t; Exit 1])%list
      | Some (trace, Returned data) =>
          let jsonOutput := stringify data in
          let trace1 :=
            (trace ++ [ConsoleLog (newline ++ "--- OUTPUT START ---");
                       ConsoleLog jsonOutput;
                       ConsoleLog "--- OUTPUT END ---"])%list in
          match outputPath with
          | Raised t =>
              Some (trace1 ++ [ConsoleErrorMessage "Export failed:" t; Exit 1])%list
          | Returned path =>
              let trace2 := (trace1 ++ [WriteFile path jsonOutput])%list in
              match writeFileSync path jsonOutput with
              | Some t =>
                  Some (trace2 ++ [ConsoleErrorMessage "Export failed:" t; Exit 1])%list
              | None =>
                  Some (trace2 ++ [ConsoleLog (newline ++ "Written to: " ++ path)])%list
              end
          end
      end
  end.

End Runtime.

(** The analysis script's fetcher: the same loop without the check of
    [response.ok] and without the progress line, against the built-in
    database. *)
Module AnalysisRun.

Section Run.

Variable env_token : option string.
Variable fetch : list Request -> Request -> outcome Response.

Fixpoint fetch_loop (fuel : nat) (trace : list event) (pages : list value)
    (nextCursor : value) : option (list event * outcome (list value)) :=
  match fuel with
  | O => None
  | S fuel' =>
      let request := query env_token DEFAULT_DATABASE_ID nextCursor in
      let trace1 := (trace ++ [Fetch request])%list in
      match fetch (requests_of trace) request with
      | Raised t => Some (trace1, Raised t)
      | Returned response =>
          match json response with
          | Raised t => Some (trace1, Raised t)
          | Returned data =>
              match read_page data with
              | Throw e => Some (trace1, Raised (Uncaught e))
              | Ok (items, hasMore, nextCursor') =>
                  let pages' := (pages ++ items)%list in
                  if truthy hasMore
                  then fetch_loop fuel' trace1 pages' nextCursor'
                  else Some (trace1, Returned pages')
              end
          end
      end
  end.

Definition fetchAllPages (fuel : nat) (trace : list event)
  : option (list event * outcome (list value)) :=
  fetch_loop fuel trace [] JUndefined.

End Run.

End AnalysisRun.

(** A response with a page of results, as the API sends it; [body] is its
    text. *)
Definition page_response (body : string) (items : list value) (more : bool)
    (cursor : value) : Response :=
  {| ok := true;
     http_status := 200;
     text := Returned body;
     json := Returned (JObj [("object", JStr "list");
                             ("results", JArr items);
                             ("next_cursor", cursor);
                             ("has_more", JBool more)]) |}.

(** An API that answers the [k]-th call with the [k]-th response of a
    script, whatever the request. *)
Definition scripted (script : list Response) (history : list Request)
    (request : Request) : outcome Response :=
  match nth_error script (List.length history) with
  | Some response => Returned response
  | None => Raised (Rejected "fetch failed")
  end.

(** The API answers its [k]-th call (counting from 0) with an ok
    response whose body holds [items], [more] and [cursor]. *)
Definition serves (fetch : list Request -> Request -> outcome Response)
    (k : nat) (items : list value) (more cursor : value) : Prop :=
  forall history request,
    List.length history = k ->
    exists response data,
      fetch history request = Returned response
      /\ ok response = true
      /\ json response = Returned data
      /\ get data "results" = Ok (JArr items)
      /\ get data "has_more" = Ok more
      /\ get data "next_cursor" = Ok cursor.

(** The API answers its [k]-th call with a response that is not ok. *)
Definition refuses (fetch : list Request -> Request -> outcome Response)
    (k : nat) (code : float) (body : string) : Prop :=
  forall history request,
    List.length history = k ->
    exists response,
      fetch history request = Returned response
      /\ ok response = false
      /\ http_status response = code
      /\ text response = Returned body.

(** Events that neither call [writeFileSync] nor end the process. *)
Definition quiet (e : event) : Prop :=
  match e with
  | WriteFile _ _ | Exit _ => False
  | _ => True
  end.

(** A [TypeError] of the pure pipeline, as the run sees it. *)
Definition lift {A : Type} (m : result A) : outcome A :=
  match m with
  | Ok a => Returned a
  | Throw e => Raised (Uncaught e)
  end.

(** Sample hosts: a token, an API that sends two pages, an API that sends
    one page and then refuses, a serializer and a file system. *)
Definition sample_token : option string := Some "secret_token".

Definition two_pages : list Response :=
  [ page_response "{...}" [acme_page; lead_page] true (JStr "cursor-1");
    page_response "{...}" [city_only_page] false JNull ].

Definition refusal_body : value :=
  JObj [("object", JStr "error");
        ("status", JNum 401);
        ("code", JStr "unauthorized");
        ("message", JStr "API token is invalid.")].

Definition refusal : Response :=
  {| ok := false;
     http_status := 401;
     text := Returned "API token is invalid.";
     json := Returned refusal_body |}.

Definition page_then_refusal : list Response :=
  [ page_response "{...}" [acme_page; lead_page] true (JStr "cursor-1"); refusal ].

Definition sample_stringify (doc : ExportDocument) : string :=
  "{ generated: " ++ generated doc ++ ", count: " ++ nat_to_string (count doc) ++ " }".

Definition sample_path : string := "/repo/stores.json".

Definition disk_ok (path content : string) : option thrown := None.

Definition disk_full (path content : string) : option thrown :=
  Some (Rejected "ENOSPC: no space left on device").

(** [acme_page] with a property and a top-level member that the export
    does not read. *)
Definition acme_page_with_notes : value :=
  JObj [("object", JStr "page");
        ("id", JStr "p-acme");
        ("properties",
         JObj (("Notes", rich_text_prop "call before noon")
               :: acme_props "Customer"))].

(** A formatter that agrees with Number::toString on the status codes of
    the samples. *)
Definition status_number_to_string (x : float) : string :=
  if PrimFloat.eqb x 200 then "200"
  else if PrimFloat.eqb x 401 then "401"
  else "NaN".

(** The run of the export script against [two_pages], computed. *)
Definition sample_export_trace : list event :=
  Eval vm_compute in
    match exportStores_run status_number_to_string sample_token None
            (scripted two_pages) "2024-03-01T00:00:00.000Z" 5 [] with
    | Some (trace, _) => trace
    | None => []
    end.

(** The whole run of [main] against [two_pages], computed. *)
Definition sample_main_trace : list event :=
  Eval vm_compute in
    match main status_number_to_string sample_token None (scripted two_pages)
            "2024-03-01T00:00:00.000Z" sample_stringify (Returned sample_path)
            disk_ok 5 with
    | Some trace => trace
    | None => []
    end.

(** An API that announces one more page after every page. *)
Definition endless (history : list Request) (request : Request) : outcome Response :=
  Returned (page_response "{...}" [acme_page] true (JStr "again")).

(** ** Reading the pipeline off the code *)

(** The property names [transformPage] reads from a page's [properties]. *)
Definition read_properties : list string :=
  ["Dispensary Name"; "Address"; "City"; "Account Status";
   "Last Order Date"; "Last Delivery Date"; "Map Location"]
  ++ map fst PRODUCT_COLUMNS.

(** The property names the export script passes to [getRollupDate]: the
    two dates of [transformPage] and the indicator fields of
    [getProducts]. *)
Definition rollup_properties : list string :=
  "Last Order Date" :: "Last Delivery Date" :: map fst PRODUCT_COLUMNS.

(** The display names of [PRODUCT_COLUMNS], each at its first occurrence. *)
Definition display_names : list string :=
  ["State of Mind"; "O-Yeah"; "Sushi Hash"; "SMACK"; "ICHI"].

(** [l] is [l'] with some elements left out; the order is kept. *)
Inductive subseq {A : Type} : list A -> list A -> Prop :=
| subseq_nil : subseq [] []
| subseq_skip (x : A) (l l' : list A) : subseq l l' -> subseq l (x :: l')
| subseq_keep (x : A) (l l' : list A) : subseq l l' -> subseq (x :: l) (x :: l').

(** Values that ToString converts: everything but an object that carries
    its own ["toString"] key, at the top or as an element of nested
    arrays. *)
Fixpoint printable (v : value) : bool :=
  match v with
  | JObj fields => negb (has_own "toString" fields)
  | JArr items => forallb (fun x => nullish x || printable x) items
  | _ => true
  end.

(** The invariant of the analysis loop, after [n] pages. *)
Definition report_ok (n : nat) (st : Analysis.Report) : Prop :=
  (Analysis.customerWithCoords st <= Analysis.withCoords st)%nat
  /\ (Analysis.withCoords st <= n)%nat
  /\ (Analysis.withOrders st <= n)%nat
  /\ (List.length (Analysis.recentCustomers st) <= Analysis.customerWithCoords st)%nat
  /\ Forall (fun e => is_number (Analysis.rc_lat e) = true
                      /\ truthy (Analysis.rc_lastOrder e) = true
                      /\ truthy (Analysis.rc_name e) = true)
            (Analysis.recentCustomers st).

(** A rich-text fragment as the API sends it, annotations included. *)
Definition fragment (s : string) : value :=
  JObj [("type", JStr "text");
        ("text", JObj [("content", JStr s); ("link", JNull)]);
        ("plain_text", JStr s);
        ("href", JNull)].

(** * Properties *)

(** ** The error monad *)

Lemma bind_Ok {A B} (m : result A) (k : A -> result B) (b : B) :
  bind m k = Ok b -> exists a, m = Ok a /\ k a = Ok b.
Proof.
  destruct m as [a|e]; simpl; intros H.
  - exists a. split; [reflexivity | exact H].
  - discriminate H.
Qed.

Ltac bind_inv H :=
  let a := fresh "v" in
  let E := fresh "E" in
  apply bind_Ok in H; destruct H as (a & E & H).

Lemma mapM_In {A B} (f : A -> result B) (l : list A) :
  forall l', mapM f l = Ok l' ->
  forall b, In b l' -> exists a, In a l /\ f a = Ok b.
Proof.
  induction l as [|a rest IH]; simpl; intros l' H b Hb.
  - injection H as <-. destruct Hb.
  - bind_inv H. bind_inv H. injection H as <-.
    destruct Hb as [<- | Hb].
    + exists a. auto.
    + destruct (IH _ E0 _ Hb) as (a' & Ha' & Hf). exists a'. auto.
Qed.

Lemma mapM_returns {A B} (f : A -> result B) (l : list A) :
  (forall a, In a l -> returns (f a) = true) -> returns (mapM f l) = true.
Proof.
  induction l as [|a rest IH]; simpl; intros H; [reflexivity|].
  assert (Ha : returns (f a) = true) by (apply H; auto).
  destruct (f a) as [b|]; [simpl | discriminate Ha].
  assert (Hr : returns (mapM f rest) = true) by (apply IH; intros; apply H; auto).
  destruct (mapM f rest); [reflexivity | discriminate Hr].
Qed.

(** ** Reading properties *)

Lemma get_not_nullish (v : value) (k : string) :
  nullish v = false -> get v k = Ok (opt_get v k).
Proof. destruct v; simpl; intros H; try reflexivity; discriminate H. Qed.

Lemma truthy_not_nullish (v : value) : truthy v = true -> nullish v = false.
Proof. destruct v; simpl; intros H; try reflexivity; discriminate H. Qed.

Lemma get_Ok_not_nullish (v : value) (k : string) (r : value) :
  get v k = Ok r -> nullish v = false.
Proof. destruct v; simpl; intros H; try reflexivity; discriminate H. Qed.

Lemma js_or_null (a : value) :
  js_or a JNull = JNull \/ (js_or a JNull = a /\ truthy a = true).
Proof. unfold js_or. destruct (truthy a); auto. Qed.

Section Properties.

Variable fmt : float -> string.

(** ** What the accessors can return *)

Lemma getPlainText_shape (v r : value) :
  getPlainText fmt v = Ok r ->
  r = JNull \/ exists s, r = JStr s /\ s <> "".
Proof.
  unfold getPlainText.
  destruct v; simpl; intros H; try (injection H as <-; left; reflexivity).
  - destruct b; injection H as <-; auto.
  - destruct (_ || _); injection H as <-; auto.
  - destruct (negb _ || _); injection H as <-; auto.
  - bind_inv H. bind_inv H. injection H as <-.
    unfold js_or; simpl. destruct (String.eqb_spec v0 ""); simpl.
    + left; reflexivity.
    + right. exists v0. auto.
Qed.

Lemma getTitle_shape (props r : value) :
  getTitle fmt props = Ok r ->
  r = JNull \/ exists s, r = JStr s /\ s <> "".
Proof.
  unfold getTitle. intros H. bind_inv H.
  destruct (negb (truthy v)); [injection H as <-; auto|].
  bind_inv H.
  destruct (negb (strict_eq_str v0 "title")); [injection H as <-; auto|].
  bind_inv H. eapply getPlainText_shape; eassumption.
Qed.

Lemma getRollupDate_shape (props : value) (propName : string) (r : value) :
  getRollupDate props propName = Ok r -> r = JNull \/ truthy r = true.
Proof.
  unfold getRollupDate. intros H. bind_inv H.
  destruct (negb (truthy v)); [injection H as <-; auto|].
  bind_inv H.
  destruct (negb (strict_eq_str v0 "rollup")); [injection H as <-; auto|].
  bind_inv H. bind_inv H.
  destruct (strict_eq_str v2 "date"); [|injection H as <-; auto].
  bind_inv H.
  destruct (truthy v3); [|injection H as <-; auto].
  bind_inv H. injection H as <-.
  destruct (js_or_null v4) as [-> | [-> Ht]]; auto.
Qed.

Lemma getMapLocation_shape (props r : value) :
  getMapLocation props = Ok r ->
  r = JNull \/ exists x y, r = JObj [("lat", JNum x); ("lng", JNum y)].
Proof.
  unfold getMapLocation. intros H. bind_inv H.
  destruct (negb (truthy v)); [injection H as <-; auto|].
  bind_inv H.
  destruct (negb (strict_eq_str v0 "place")); [injection H as <-; auto|].
  bind_inv H.
  destruct (negb (truthy v1)); [injection H as <-; auto|].
  bind_inv H. bind_inv H.
  destruct v2; simpl in H; try (injection H as <-; auto).
  destruct v3; simpl in H; try (injection H as <-; auto).
  right. eauto.
Qed.

(** The accessors that guard every nested read return on any property
    bag, whatever the properties hold. *)
Lemma getStatus_returns (props : value) :
  nullish props = false -> returns (getStatus props) = true.
Proof.
  intros Hp. unfold getStatus. rewrite (get_not_nullish _ _ Hp). simpl.
  destruct (truthy (opt_get props "Account Status")) eqn:Ht; simpl; [|reflexivity].
  rewrite (get_not_nullish _ _ (truthy_not_nullish _ Ht)). simpl.
  destruct (negb _); simpl; [reflexivity|].
  rewrite (get_not_nullish _ _ (truthy_not_nullish _ Ht)). reflexivity.
Qed.

Lemma getMapLocation_returns (props : value) :
  nullish props = false -> returns (getMapLocation props) = true.
Proof.
  intros Hp. unfold getMapLocation. rewrite (get_not_nullish _ _ Hp). simpl.
  destruct (truthy (opt_get props "Map Location")) eqn:Ht; simpl; [|reflexivity].
  rewrite (get_not_nullish _ _ (truthy_not_nullish _ Ht)). simpl.
  destruct (negb _); simpl; [reflexivity|].
  rewrite (get_not_nullish _ _ (truthy_not_nullish _ Ht)). simpl.
  destruct (truthy (opt_get (opt_get props "Map Location") "place")) eqn:Hq;
    simpl; [|reflexivity].
  rewrite !(get_not_nullish _ _ (truthy_not_nullish _ Hq)). simpl.
  destruct (_ || _); reflexivity.
Qed.

(** ** The record transformer, field by field *)

Lemma transformPage_inv (page : value) (s : Store) :
  transformPage fmt page = Ok s ->
  exists props street city location,
    get page "properties" = Ok props
    /\ getTitle fmt props = Ok (name s)
    /\ getPlainText fmt (opt_get (opt_get props "Address") "rich_text") = Ok street
    /\ getPlainText fmt (opt_get (opt_get props "City") "rich_text") = Ok city
    /\ getStatus props = Ok (status s)
    /\ getRollupDate props "Last Order Date" = Ok (lastOrderDate s)
    /\ getRollupDate props "Last Delivery Date" = Ok (lastDeliveryDate s)
    /\ getMapLocation props = Ok location
    /\ getProducts props = Ok (products s)
    /\ (if truthy street
        then (if truthy city then address_with_city fmt street city
              else Ok street)
        else Ok JNull) = Ok (address s)
    /\ lat s = js_or (opt_get location "lat") JNull
    /\ lng s = js_or (opt_get location "lng") JNull.
Proof.
  unfold transformPage. intros H.
  bind_inv H. bind_inv H. bind_inv H. bind_inv H. bind_inv H. bind_inv H.
  bind_inv H. bind_inv H. bind_inv H. bind_inv H. bind_inv H. bind_inv H.
  bind_inv H. injection H as <-. simpl.
  rewrite (get_not_nullish _ _ (get_Ok_not_nullish _ _ _ E1)) in E1.
  rewrite (get_not_nullish _ _ (get_Ok_not_nullish _ _ _ E3)) in E3.
  injection E1 as <-. injection E3 as <-.
  exists v, v2, v4, v8. repeat split; assumption.
Qed.

Lemma transformPage_coordinates (page : value) (s : Store) :
  transformPage fmt page = Ok s ->
  (lat s = JNull \/ exists x, lat s = JNum x)
  /\ (lng s = JNull \/ exists y, lng s = JNum y).
Proof.
  intros H. destruct (transformPage_inv _ _ H)
    as (props & street & city & loc & _ & _ & _ & _ & _ & _ & _ & Hloc & _ & _ & Hlat & Hlng).
  rewrite Hlat, Hlng.
  destruct (getMapLocation_shape _ _ Hloc) as [-> | (x & y & ->)]; simpl.
  - split; left; reflexivity.
  - unfold js_or. split.
    + destruct (truthy (JNum x)); [right; eauto | left; reflexivity].
    + destruct (truthy (JNum y)); [right; eauto | left; reflexivity].
Qed.

(** Every record of the document is the projection of a transformed page
    that passed the filter. *)
Lemma exportStores_inv (pages : list value) (now : string) (doc : ExportDocument) :
  exportStores fmt pages now = Ok doc ->
  exists allStores,
    mapM (transformPage fmt) pages = Ok allStores
    /\ generated doc = now
    /\ count doc = List.length (map outputStore (filterStores allStores))
    /\ stores doc = map outputStore (filterStores allStores).
Proof.
  unfold exportStores. intros H. bind_inv H. injection H as <-.
  exists v. simpl. auto.
Qed.

Lemma exportStores_provenance (pages : list value) (now : string)
    (doc : ExportDocument) (r : OutputStore) :
  exportStores fmt pages now = Ok doc ->
  In r (stores doc) ->
  exists page s,
    In page pages /\ transformPage fmt page = Ok s
    /\ publishable s = true /\ r = outputStore s.
Proof.
  intros H Hr. destruct (exportStores_inv _ _ _ H) as (all & Hall & _ & _ & Hs).
  rewrite Hs in Hr. apply in_map_iff in Hr. destruct Hr as (s & <- & Hin).
  unfold filterStores in Hin. apply filter_In in Hin. destruct Hin as [Hin Hp].
  destruct (mapM_In _ _ _ Hall _ Hin) as (page & Hpage & Ht).
  exists page, s. auto.
Qed.

(** ** Filter stage *)

Lemma includes_valid (v : value) :
  includes VALID_ACCOUNT_STATUSES v = true ->
  v = JStr "Customer" \/ v = JStr "Customer Overdue".
Proof.
  destruct v; simpl; try discriminate.
  destruct (String.eqb_spec s "Customer") as [-> | _]; [auto|].
  destruct (String.eqb_spec s "Customer Overdue") as [-> | _]; [auto|].
  discriminate.
Qed.

Lemma publishable_inv (s : Store) :
  publishable s = true ->
  truthy (name s) = true /\ truthy (lat s) = true /\ truthy (lng s) = true
  /\ includes VALID_ACCOUNT_STATUSES (status s) = true.
Proof.
  unfold publishable.
  destruct (truthy (name s)), (truthy (lat s)), (truthy (lng s)),
    (includes VALID_ACCOUNT_STATUSES (status s)); simpl; intros H;
    try discriminate H; auto.
Qed.

(** C1 (the code departs from it): a named customer at latitude 0 and
    longitude 0 does not survive.  The location accessor returns the pair
    of zeros, the transformer's [|| null] turns each zero into [null], the
    filter's falsy test rejects the store and the document comes out
    empty. *)
Theorem zero_coordinates_are_dropped (now : string) :
  (exists props,
      get zero_page "properties" = Ok props
      /\ getMapLocation props
         = Ok (JObj [("lat", JNum 0); ("lng", JNum 0)]))
  /\ transformPage fmt zero_page
     = Ok {| id := JStr "p-zero";
             name := JStr "Null Island Dispensary";
             address := JNull;
             lat := JNull;
             lng := JNull;
             status := JStr "Customer";
             lastOrderDate := JNull;
             lastDeliveryDate := JNull;
             products := [] |}
  /\ exportStores fmt [zero_page] now
     = Ok {| generated := now; count := 0; stores := [] |}.
Proof.
  split; [eexists; split; reflexivity|].
  split; reflexivity.
Qed.

(** C2 (the code departs from it): two accessors raise on malformed
    input.  [getPlainText] throws on a rich-text array that holds [null],
    and so does [getTitle] on a title made of it; [getRollupDate] throws on
    a rollup property whose nested [rollup] object is missing, and one
    such record aborts the whole export. *)
Theorem accessors_throw_on_malformed_input :
  getPlainText fmt null_rich_text = Throw TypeError
  /\ getTitle fmt
       (JObj [("Dispensary Name",
               JObj [("type", JStr "title"); ("title", null_rich_text)])])
     = Throw TypeError
  /\ getRollupDate bare_rollup_props "Last Order Date" = Throw TypeError
  /\ forall now, exportStores fmt [acme_page; broken_page] now = Throw TypeError.
Proof. repeat split; reflexivity. Qed.

(** C3 (the code departs from it): for a record at latitude 0 and
    longitude -78.5 the normalized store has [lng] and no [lat]: exactly
    one coordinate is present. *)
Theorem half_coordinates_on_the_equator :
  transformPage fmt equator_page
  = Ok {| id := JStr "p-equator";
          name := JStr "Mitad del Mundo";
          address := JNull;
          lat := JNull;
          lng := JNum (-78.5);
          status := JStr "Customer";
          lastOrderDate := JNull;
          lastDeliveryDate := JNull;
          products := [] |}.
Proof. reflexivity. Qed.

(** C6: a store whose status is neither "Customer" nor "Customer Overdue"
    (so "Lead", "Churned", or no status at all) is not among the filtered
    stores, whatever its other fields; the document holds exactly the
    projections of the filtered stores, each of which has a whitelisted
    status. *)
Theorem status_outside_whitelist_is_rejected
    (pages : list value) (now : string) (doc : ExportDocument)
    (allStores : list Store) (s : Store) :
  mapM (transformPage fmt) pages = Ok allStores ->
  exportStores fmt pages now = Ok doc ->
  status s <> JStr "Customer" ->
  status s <> JStr "Customer Overdue" ->
  ~ In s (filterStores allStores)
  /\ stores doc = map outputStore (filterStores allStores)
  /\ (forall s', In s' (filterStores allStores) ->
        status s' = JStr "Customer" \/ status s' = JStr "Customer Overdue").
Proof.
  intros Hall Hdoc Hc Ho.
  assert (Hw : forall s', In s' (filterStores allStores) ->
             status s' = JStr "Customer" \/ status s' = JStr "Customer Overdue").
  { intros s' Hin. unfold filterStores in Hin. apply filter_In in Hin.
    destruct Hin as [_ Hp]. apply publishable_inv in Hp.
    apply includes_valid. tauto. }
  split; [|split].
  - intros Hin. destruct (Hw _ Hin); contradiction.
  - destruct (exportStores_inv _ _ _ Hdoc) as (all & Hall' & _ & _ & Hs).
    rewrite Hall in Hall'. injection Hall' as <-. exact Hs.
  - exact Hw.
Qed.

(** C7: every record of the document has a numeric [lat] and a numeric
    [lng] (neither is NaN) and a [name] that is a non-empty string. *)
Theorem output_records_are_located_and_named
    (pages : list value) (now : string) (doc : ExportDocument) (r : OutputStore) :
  exportStores fmt pages now = Ok doc ->
  In r (stores doc) ->
  (exists x, out_lat r = JNum x /\ PrimFloat.is_nan x = false)
  /\ (exists y, out_lng r = JNum y /\ PrimFloat.is_nan y = false)
  /\ (exists n, out_name r = JStr n /\ n <> "").
Proof.
  intros Hdoc Hr.
  destruct (exportStores_provenance _ _ _ _ Hdoc Hr) as (page & s & _ & Ht & Hp & ->).
  apply publishable_inv in Hp. destruct Hp as (Hn & Hla & Hlo & _).
  destruct (transformPage_coordinates _ _ Ht) as [Hlat Hlng].
  destruct (transformPage_inv _ _ Ht) as (props & _ & _ & _ & _ & Hname & _).
  simpl. split; [|split].
  - destruct Hlat as [E | (x & E)]; rewrite E in Hla; [discriminate Hla|].
    exists x. split; [exact E|]. simpl in Hla.
    destruct (PrimFloat.is_nan x); [|reflexivity].
    rewrite orb_true_r in Hla. discriminate Hla.
  - destruct Hlng as [E | (y & E)]; rewrite E in Hlo; [discriminate Hlo|].
    exists y. split; [exact E|]. simpl in Hlo.
    destruct (PrimFloat.is_nan y); [|reflexivity].
    rewrite orb_true_r in Hlo. discriminate Hlo.
  - destruct (getTitle_shape _ _ Hname) as [E | (n & E & Hne)].
    + rewrite E in Hn. discriminate Hn.
    + exists n. auto.
Qed.

(** C9: every record of the document projects a filtered store, and its
    [lastDelivery] is that store's [lastDeliveryDate] when it is present
    and its [lastOrderDate] otherwise; the two dates are never compared. *)
Theorem lastDelivery_prefers_the_delivery_date
    (pages : list value) (now : string) (doc : ExportDocument) (r : OutputStore) :
  exportStores fmt pages now = Ok doc ->
  In r (stores doc) ->
  exists page s,
    In page pages /\ transformPage fmt page = Ok s /\ r = outputStore s
    /\ lastDelivery r = match lastDeliveryDate s with
                        | JNull => lastOrderDate s
                        | d => d
                        end.
Proof.
  intros Hdoc Hr.
  destruct (exportStores_provenance _ _ _ _ Hdoc Hr) as (page & s & Hin & Ht & _ & ->).
  exists page, s. repeat split; try assumption.
  destruct (transformPage_inv _ _ Ht)
    as (props & _ & _ & _ & _ & _ & _ & _ & _ & _ & Hd & _).
  simpl. unfold js_or.
  destruct (getRollupDate_shape _ _ _ Hd) as [E | E].
  - rewrite E. reflexivity.
  - rewrite E. destruct (lastDeliveryDate s); try reflexivity. discriminate E.
Qed.

(** C10: the [count] of an assembled document is the length of its
    [stores]. *)
Theorem count_is_the_number_of_stores
    (pages : list value) (now : string) (doc : ExportDocument) :
  exportStores fmt pages now = Ok doc -> count doc = List.length (stores doc).
Proof.
  intros H. destruct (exportStores_inv _ _ _ H) as (all & _ & _ & Hc & Hs).
  rewrite Hc, Hs. reflexivity.
Qed.

(** ** Product resolver *)

Lemma set_add_In (x y : string) (l : list string) :
  In y (set_add x l) <-> y = x \/ In y l.
Proof.
  unfold set_add. destruct (existsb (String.eqb x) l) eqn:Hx.
  - split; [auto|]. intros [-> | H]; [|exact H].
    apply existsb_exists in Hx. destruct Hx as (z & Hz & Hxz).
    apply String.eqb_eq in Hxz. subst z. exact Hz.
  - rewrite in_app_iff. simpl. split.
    + intros [H | [<- | []]]; auto.
    + intros [-> | H]; auto.
Qed.

Lemma set_add_NoDup (x : string) (l : list string) :
  NoDup l -> NoDup (set_add x l).
Proof.
  intros Hl. unfold set_add. destruct (existsb (String.eqb x) l) eqn:Hx; [exact Hl|].
  apply NoDup_app; [exact Hl | constructor; [intros [] | constructor] |].
  intros y Hy [Hxy | []]. subst y.
  assert (Ht : existsb (String.eqb x) l = true).
  { apply existsb_exists. exists x. split; [exact Hy | apply String.eqb_refl]. }
  rewrite Ht in Hx. discriminate Hx.
Qed.

Lemma getProducts_loop_spec (props : value) (entries : list (string * string)) :
  forall acc ps,
    NoDup acc ->
    getProducts_loop props entries acc = Ok ps ->
    NoDup ps
    /\ forall d, In d ps <->
         In d acc
         \/ exists p v, In (p, d) entries
                        /\ getRollupDate props p = Ok v /\ v <> JNull.
Proof.
  induction entries as [|[p d0] rest IH]; simpl; intros acc ps Hacc H.
  - injection H as <-. split; [exact Hacc|].
    intros d. split; [auto|]. intros [H | (p & v & [] & _)]. exact H.
  - bind_inv H.
    assert (Hv : truthy v = true <-> v <> JNull).
    { destruct (getRollupDate_shape _ _ _ E) as [-> | Ht].
      - simpl. split; [discriminate | intros C; contradiction C; reflexivity].
      - split; [|auto]. intros _ ->. discriminate Ht. }
    assert (Hacc' : NoDup (if truthy v then set_add d0 acc else acc)).
    { destruct (truthy v); [apply set_add_NoDup|]; exact Hacc. }
    destruct (IH _ _ Hacc' H) as [Hnd Hin]. split; [exact Hnd|].
    intros d. rewrite Hin. split.
    + intros [Hd | (p' & v' & Hp' & Hg & Hne)].
      * destruct (truthy v) eqn:Ht; [|auto].
        apply set_add_In in Hd. destruct Hd as [-> | Hd]; [|auto].
        right. exists p, v. split; [auto|]. split; [exact E|]. apply Hv. reflexivity.
      * right. exists p', v'. auto.
    + intros [Hd | (p' & v' & [Hp' | Hp'] & Hg & Hne)].
      * left. destruct (truthy v); [apply set_add_In|]; auto.
      * injection Hp' as <- <-. rewrite E in Hg. injection Hg as <-.
        left. apply Hv in Hne. rewrite Hne. apply set_add_In. auto.
      * right. exists p', v'. auto.
Qed.

Lemma getProducts_loop_returns (props : value) (entries : list (string * string)) :
  (forall p d, In (p, d) entries -> returns (getRollupDate props p) = true) ->
  forall acc, returns (getProducts_loop props entries acc) = true.
Proof.
  induction entries as [|[p d0] rest IH]; simpl; intros H acc; [reflexivity|].
  assert (Hp : returns (getRollupDate props p) = true) by (apply (H p d0); auto).
  destruct (getRollupDate props p); [simpl | discriminate Hp].
  apply IH. intros p' d' Hin. apply (H p' d'). auto.
Qed.

(** The resolver returns as soon as the date accessor does on each
    indicator field. *)
Lemma getProducts_returns (props : value) :
  (forall p d, In (p, d) PRODUCT_COLUMNS -> returns (getRollupDate props p) = true) ->
  returns (getProducts props) = true.
Proof. intros H. apply getProducts_loop_returns. exact H. Qed.

(** C8: the resolver's result holds no display name twice; a display name
    is in it exactly when one of the indicator fields mapped to it has a
    rollup date that is present; and when either SMACK field has a date,
    "SMACK" occurs exactly once. *)
Theorem products_are_deduplicated (props : value) (ps : list string) :
  getProducts props = Ok ps ->
  NoDup ps
  /\ (forall d, In d ps <->
        exists p v, In (p, d) PRODUCT_COLUMNS
                    /\ getRollupDate props p = Ok v /\ v <> JNull)
  /\ (forall p v, p = "SMACK 1G" \/ p = "SMACK .5G" ->
        getRollupDate props p = Ok v -> v <> JNull ->
        count_occ string_dec ps "SMACK" = 1%nat).
Proof.
  intros H. unfold getProducts in H.
  destruct (getProducts_loop_spec _ _ _ _ (NoDup_nil _) H) as [Hnd Hin].
  assert (Hin' : forall d, In d ps <->
            exists p v, In (p, d) PRODUCT_COLUMNS
                        /\ getRollupDate props p = Ok v /\ v <> JNull).
  { intros d. rewrite Hin. split; [intros [[] | Hx]; exact Hx | auto]. }
  split; [exact Hnd|]. split; [exact Hin'|].
  intros p v Hp Hg Hne.
  apply (proj1 (NoDup_count_occ' string_dec ps) Hnd).
  apply Hin'. exists p, v. split; [|auto].
  destruct Hp as [-> | ->]; simpl; auto 10.
Qed.

(** ** Address *)

(** C4, as the code has it: the address is "street, city" when both are
    present, the street when only the street is present, and absent
    whenever the street is absent, also when a city is present. *)
Theorem address_follows_the_street (page : value) (s : Store) :
  transformPage fmt page = Ok s ->
  exists props street city,
    get page "properties" = Ok props
    /\ getPlainText fmt (opt_get (opt_get props "Address") "rich_text") = Ok street
    /\ getPlainText fmt (opt_get (opt_get props "City") "rich_text") = Ok city
    /\ address s = match street, city with
                   | JStr a, JStr c => JStr (a ++ ", " ++ c)
                   | JStr a, _ => JStr a
                   | _, _ => JNull
                   end.
Proof.
  intros H.
  destruct (transformPage_inv _ _ H)
    as (props & street & city & loc & Hp & _ & Hs & Hc & _ & _ & _ & _ & _ & Ha & _).
  exists props, street, city. repeat split; try assumption.
  destruct (getPlainText_shape _ _ Hs) as [-> | (a & -> & Ha0)].
  - simpl in Ha. injection Ha as <-. reflexivity.
  - assert (Hta : truthy (JStr a) = true).
    { simpl. destruct (String.eqb_spec a ""); [contradiction | reflexivity]. }
    rewrite Hta in Ha.
    destruct (getPlainText_shape _ _ Hc) as [-> | (c & -> & Hc0)].
    + simpl in Ha. injection Ha as <-. reflexivity.
    + assert (Htc : truthy (JStr c) = true).
      { simpl. destruct (String.eqb_spec c ""); [contradiction | reflexivity]. }
      rewrite Htc in Ha. simpl in Ha. injection Ha as <-. reflexivity.
Qed.

(** ** When the pipeline returns *)

Lemma transformPage_returns (page props : value) :
  get page "properties" = Ok props ->
  returns (getTitle fmt props) = true ->
  returns (getPlainText fmt (opt_get (opt_get props "Address") "rich_text")) = true ->
  returns (getPlainText fmt (opt_get (opt_get props "City") "rich_text")) = true ->
  (forall p, In p ("Last Order Date" :: "Last Delivery Date"
                     :: map fst PRODUCT_COLUMNS) ->
             returns (getRollupDate props p) = true) ->
  returns (transformPage fmt page) = true.
Proof.
  intros Hp Ht Ha Hc Hr. unfold transformPage. rewrite Hp. simpl.
  destruct (getTitle fmt props) as [n|] eqn:En; [simpl | discriminate Ht].
  assert (Hn : nullish props = false).
  { unfold getTitle in En. bind_inv En. eapply get_Ok_not_nullish; eassumption. }
  rewrite !(get_not_nullish _ _ Hn). simpl.
  destruct (getPlainText fmt (opt_get (opt_get props "Address") "rich_text"))
    as [a|] eqn:Ea; [simpl | discriminate Ha].
  destruct (getPlainText fmt (opt_get (opt_get props "City") "rich_text"))
    as [c|] eqn:Ec; [simpl | discriminate Hc].
  pose proof (getStatus_returns props Hn) as Hs.
  destruct (getStatus props); [simpl | discriminate Hs].
  assert (Ho : returns (getRollupDate props "Last Order Date") = true)
    by (apply Hr; simpl; auto).
  destruct (getRollupDate props "Last Order Date"); [simpl | discriminate Ho].
  assert (Hd : returns (getRollupDate props "Last Delivery Date") = true)
    by (apply Hr; simpl; auto).
  destruct (getRollupDate props "Last Delivery Date"); [simpl | discriminate Hd].
  pose proof (getMapLocation_returns props Hn) as Hl.
  destruct (getMapLocation props); [simpl | discriminate Hl].
  assert (Hps : returns (getProducts props) = true).
  { apply getProducts_returns. intros p d Hin. apply Hr.
    right. right. change p with (fst (p, d)). apply in_map. exact Hin. }
  destruct (getProducts props); [simpl | discriminate Hps].
  rewrite (get_not_nullish _ _ (get_Ok_not_nullish _ _ _ Hp)). simpl.
  destruct (getPlainText_shape _ _ Ea) as [-> | (a' & -> & Ha')];
    [reflexivity|].
  assert (Hta : truthy (JStr a') = true).
  { simpl. destruct (String.eqb_spec a' ""); [contradiction | reflexivity]. }
  rewrite Hta.
  destruct (getPlainText_shape _ _ Ec) as [-> | (c' & -> & Hc')];
    [reflexivity|].
  assert (Htc : truthy (JStr c') = true).
  { simpl. destruct (String.eqb_spec c' ""); [contradiction | reflexivity]. }
  rewrite Htc. reflexivity.
Qed.

Lemma exportStores_returns (pages : list value) (now : string) :
  (forall page, In page pages -> returns (transformPage fmt page) = true) ->
  returns (exportStores fmt pages now) = true.
Proof.
  intros H. unfold exportStores.
  pose proof (mapM_returns (transformPage fmt) pages H) as Hm.
  destruct (mapM (transformPage fmt) pages); [reflexivity | discriminate Hm].
Qed.

(** ** Zero coordinates *)

(** Whatever the record, a latitude or a longitude of zero is turned into
    [null] by the transformer and the store is then rejected. *)
Lemma zero_coordinate_is_lost (page props : value) (s : Store) (x y : float) :
  transformPage fmt page = Ok s ->
  get page "properties" = Ok props ->
  getMapLocation props = Ok (JObj [("lat", JNum x); ("lng", JNum y)]) ->
  (PrimFloat.is_zero x = true -> lat s = JNull /\ publishable s = false)
  /\ (PrimFloat.is_zero y = true -> lng s = JNull /\ publishable s = false).
Proof.
  intros Ht Hp Hl.
  destruct (transformPage_inv _ _ Ht)
    as (props' & street & city & loc & Hp' & _ & _ & _ & _ & _ & _ & Hl' & _ & _ & Hlat & Hlng).
  rewrite Hp in Hp'. injection Hp' as <-.
  rewrite Hl in Hl'. injection Hl' as <-.
  unfold js_or in Hlat, Hlng. simpl in Hlat, Hlng.
  split; intros Hz; rewrite Hz in *; simpl in *.
  - split; [exact Hlat|]. unfold publishable. rewrite Hlat. simpl.
    rewrite orb_true_r. reflexivity.
  - split; [exact Hlng|]. unfold publishable. rewrite Hlng. simpl.
    rewrite orb_true_r. reflexivity.
Qed.

End Properties.

(** ** Analysis report *)

(** The day number of a civil date is that of the first of its month plus
    the day of the month, and [civil_from_days] inverts it. *)
Lemma civil_from_days_spec (n : Z) :
  let '(y, m, d) := civil_from_days n in
  (1 <= m <= 12)%Z
  /\ forall k, (days_from_civil y m 1 + (d + k) - 1 = n + k)%Z.
Proof.
  unfold civil_from_days, days_from_civil. cbv zeta.
  set (z := (n + 719468)%Z).
  set (era := (z / 146097)%Z).
  set (doe := (z - era * 146097)%Z).
  assert (Hdoe : (0 <= doe <= 146096)%Z)
    by (unfold doe, era; Z.div_mod_to_equations; lia).
  set (yoe := ((doe - doe / 1460 + doe / 36524 - doe / 146096) / 365)%Z).
  assert (Hy : (0 <= yoe <= 399)%Z
               /\ (0 <= doe - (365 * yoe + yoe / 4 - yoe / 100) <= 365)%Z)
    by (unfold yoe; Z.div_mod_to_equations; lia).
  set (doy := (doe - (365 * yoe + yoe / 4 - yoe / 100))%Z) in *.
  set (mp := ((5 * doy + 2) / 153)%Z).
  assert (Hmp : (0 <= mp <= 11)%Z) by (unfold mp; Z.div_mod_to_equations; lia).
  destruct (mp <? 10)%Z eqn:E10.
  - apply Z.ltb_lt in E10.
    replace (mp + 3 <=? 2)%Z with false by (symmetry; apply Z.leb_gt; lia).
    replace (mp + 3 >? 2)%Z with true by (symmetry; apply Z.gtb_lt; lia).
    split; [lia|]. intros k.
    replace ((yoe + era * 400) / 400)%Z with era by (Z.div_mod_to_equations; lia).
    replace (mp + 3 - 3)%Z with mp by lia.
    unfold doy, doe, z. Z.div_mod_to_equations. lia.
  - apply Z.ltb_ge in E10.
    replace (mp - 9 <=? 2)%Z with true by (symmetry; apply Z.leb_le; lia).
    replace (mp - 9 >? 2)%Z with false
      by (rewrite Z.gtb_ltb; symmetry; apply Z.ltb_ge; lia).
    split; [lia|]. intros k.
    replace (yoe + era * 400 + 1 - 1)%Z with (yoe + era * 400)%Z by lia.
    replace ((yoe + era * 400) / 400)%Z with era by (Z.div_mod_to_equations; lia).
    replace (mp - 9 + 9)%Z with mp by lia.
    unfold doy, doe, z. Z.div_mod_to_equations. lia.
Qed.

(** Moving the day of the month by [k] moves the day number by [k],
    across the ends of months and years. *)
Lemma MakeDay_shift (t k : Z) :
  MakeDay (YearFromTime t) (MonthFromTime t) (DateFromTime t + k) = (Day t + k)%Z.
Proof.
  unfold MakeDay, YearFromTime, MonthFromTime, DateFromTime.
  pose proof (civil_from_days_spec (Day t)) as H.
  destruct (civil_from_days (Day t)) as [[y m] d]. simpl.
  destruct H as [Hm Hk].
  replace ((m - 1) / 12)%Z with 0%Z by (Z.div_mod_to_equations; lia).
  replace ((m - 1) mod 12 + 1)%Z with m by (Z.div_mod_to_equations; lia).
  rewrite Z.add_0_r. apply Hk.
Qed.

(** [setDate(getDate() - 60)] puts the date at the same local time sixty
    days earlier. *)
Lemma sixtyDaysAgo_at_spec (LocalTZA : Z -> bool -> Z) (now : Z) :
  sixtyDaysAgo_at LocalTZA now
  = TimeClip (UTC LocalTZA (LocalTime LocalTZA now - 60 * msPerDay)).
Proof.
  unfold sixtyDaysAgo_at, setDate, getDate.
  set (t := LocalTime LocalTZA now).
  replace (DateFromTime t - 60)%Z with (DateFromTime t + -60)%Z by lia.
  rewrite MakeDay_shift. do 2 f_equal.
  unfold MakeDate, Day, TimeWithinDay, msPerDay. Z.div_mod_to_equations. lia.
Qed.

(** On a host in UTC the limit is the run time less 5 184 000 000 ms. *)
Lemma sixtyDaysAgo_at_in_utc (LocalTZA : Z -> bool -> Z) (now : Z) :
  (forall t b, LocalTZA t b = 0%Z) ->
  sixtyDaysAgo_at LocalTZA now = TimeClip (now - 5184000000).
Proof.
  intros H. rewrite sixtyDaysAgo_at_spec. unfold UTC, LocalTime, msPerDay.
  rewrite !H. f_equal. lia.
Qed.

Section ReportProperties.

Variable fmt : float -> string.
Variable Date_time : value -> result (option Z).
Variable sixtyDaysAgo : option Z.

Lemma is_recent_true (d : value) :
  Analysis.is_recent Date_time sixtyDaysAgo d = Ok true <->
  truthy d = true
  /\ exists t limit,
       Date_time d = Ok (Some t) /\ sixtyDaysAgo = Some limit /\ (limit <= t)%Z.
Proof.
  unfold Analysis.is_recent, Analysis.not_before_limit. destruct (truthy d).
  - destruct (Date_time d) as [[t|]|e]; simpl.
    + destruct sixtyDaysAgo as [limit|].
      * split.
        -- intros H. injection H as H. apply Z.leb_le in H.
           split; [reflexivity|]. exists t, limit. auto.
        -- intros (_ & t' & limit' & Ht' & Hl & Hle).
           injection Ht' as <-. injection Hl as <-.
           apply Z.leb_le in Hle. rewrite Hle. reflexivity.
      * split; [discriminate|]. intros (_ & t' & limit & _ & Hl & _). discriminate Hl.
    + split; [discriminate|]. intros (_ & t & limit & Ht & _). discriminate Ht.
    + split; [discriminate|]. intros (_ & t & limit & Ht & _). discriminate Ht.
  - split; [discriminate|]. intros (Hf & _). discriminate Hf.
Qed.


End ReportProperties.


(** ** Closed instances *)

(** C4, as the specification words it, fails on a record that has a city
    and no street: the claimed address is the city, the code's is absent. *)
Lemma city_alone_yields_no_address :
  ~ address_claim plain_number_to_string city_only_page.
Proof.
  intros C.
  specialize (C (JObj [ ("Dispensary Name", title_prop "Corner Shop");
                        ("City", rich_text_prop "Oakland");
                        ("Account Status", status_prop "Customer");
                        ("Map Location", place_prop 37.75 (-122.25)) ])
                JNull (JStr "Oakland") city_only_store
                eq_refl eq_refl eq_refl eq_refl).
  discriminate C.
Qed.

Lemma address_follows_the_street_witness :
  transformPage plain_number_to_string acme_page
  = Ok (acme_store "p-acme" "Customer")
  /\ exists props street city,
       get acme_page "properties" = Ok props
       /\ getPlainText plain_number_to_string
            (opt_get (opt_get props "Address") "rich_text") = Ok street
       /\ getPlainText plain_number_to_string
            (opt_get (opt_get props "City") "rich_text") = Ok city
       /\ address (acme_store "p-acme" "Customer")
          = match street, city with
            | JStr a, JStr c => JStr (a ++ ", " ++ c)
            | JStr a, _ => JStr a
            | _, _ => JNull
            end.
Proof.
  split; [reflexivity|].
  apply (address_follows_the_street plain_number_to_string acme_page).
  reflexivity.
Defined.



(** There is no bound on the other side of the limit: in a run on
    2024-03-01 a customer whose delivery is dated 2030-01-01 is listed. *)
Example future_delivery_is_listed :
  run_report plain_number_to_string date_only_time utc_zone run_2024_03_01
    [future_page]
  = Ok {| Analysis.withCoords := 1;
          Analysis.withOrders := 1;
          Analysis.customerWithCoords := 1;
          Analysis.recentCustomers :=
            [ {| Analysis.rc_name := JStr "Tomorrow";
                 Analysis.rc_lastOrder := JStr "2030-01-01";
                 Analysis.rc_lat := JNum 37.75;
                 Analysis.rc_lng := JNum (-122.25) |} ] |}.
Proof. reflexivity. Qed.

(** The limit is inclusive: a delivery on the very day of the limit is
    listed. *)
Example delivery_on_the_limit_is_listed :
  Analysis.main plain_number_to_string date_only_time limit_2023_01_01 [acme_page]
  = Ok {| Analysis.withCoords := 1;
          Analysis.withOrders := 1;
          Analysis.customerWithCoords := 1;
          Analysis.recentCustomers :=
            [ {| Analysis.rc_name := JStr "Acme";
                 Analysis.rc_lastOrder := JStr "2023-01-01";
                 Analysis.rc_lat := JNum 37.75;
                 Analysis.rc_lng := JNum (-122.25) |} ] |}.
Proof. reflexivity. Qed.

Lemma status_outside_whitelist_witness :
  mapM (transformPage plain_number_to_string) [acme_page; lead_page]
  = Ok [acme_store "p-acme" "Customer"; acme_store "p-lead" "Lead"]
  /\ exportStores plain_number_to_string [acme_page; lead_page] "2024-03-01T00:00:00.000Z"
     = Ok (acme_document "2024-03-01T00:00:00.000Z")
  /\ status (acme_store "p-lead" "Lead") <> JStr "Customer"
  /\ status (acme_store "p-lead" "Lead") <> JStr "Customer Overdue"
  /\ ~ In (acme_store "p-lead" "Lead")
          (filterStores [acme_store "p-acme" "Customer"; acme_store "p-lead" "Lead"])
  /\ stores (acme_document "2024-03-01T00:00:00.000Z")
     = map outputStore
         (filterStores [acme_store "p-acme" "Customer"; acme_store "p-lead" "Lead"])
  /\ (forall s', In s' (filterStores [acme_store "p-acme" "Customer";
                                      acme_store "p-lead" "Lead"]) ->
        status s' = JStr "Customer" \/ status s' = JStr "Customer Overdue").
Proof.
  split; [reflexivity|]. split; [reflexivity|].
  split; [discriminate|]. split; [discriminate|].
  apply (status_outside_whitelist_is_rejected plain_number_to_string
           [acme_page; lead_page] "2024-03-01T00:00:00.000Z");
    [reflexivity | reflexivity | discriminate | discriminate].
Defined.

Lemma output_records_witness :
  exportStores plain_number_to_string [acme_page] "2024-03-01T00:00:00.000Z"
  = Ok (acme_document "2024-03-01T00:00:00.000Z")
  /\ In (outputStore (acme_store "p-acme" "Customer"))
        (stores (acme_document "2024-03-01T00:00:00.000Z"))
  /\ (exists x, out_lat (outputStore (acme_store "p-acme" "Customer")) = JNum x
                /\ PrimFloat.is_nan x = false)
  /\ (exists y, out_lng (outputStore (acme_store "p-acme" "Customer")) = JNum y
                /\ PrimFloat.is_nan y = false)
  /\ (exists n, out_name (outputStore (acme_store "p-acme" "Customer")) = JStr n
                /\ n <> "").
Proof.
  split; [reflexivity|]. split; [left; reflexivity|].
  apply (output_records_are_located_and_named plain_number_to_string
           [acme_page] "2024-03-01T00:00:00.000Z"
           (acme_document "2024-03-01T00:00:00.000Z"));
    [reflexivity | left; reflexivity].
Defined.

Lemma products_witness :
  getProducts (JObj (acme_props "Customer")) = Ok ["O-Yeah"; "SMACK"]
  /\ NoDup ["O-Yeah"; "SMACK"]
  /\ (forall d, In d ["O-Yeah"; "SMACK"] <->
        exists p v, In (p, d) PRODUCT_COLUMNS
                    /\ getRollupDate (JObj (acme_props "Customer")) p = Ok v
                    /\ v <> JNull)
  /\ (forall p v, p = "SMACK 1G" \/ p = "SMACK .5G" ->
        getRollupDate (JObj (acme_props "Customer")) p = Ok v -> v <> JNull ->
        count_occ string_dec ["O-Yeah"; "SMACK"] "SMACK" = 1%nat).
Proof.
  split; [reflexivity|].
  apply (products_are_deduplicated (JObj (acme_props "Customer"))).
  reflexivity.
Defined.

Lemma lastDelivery_witness :
  exportStores plain_number_to_string [acme_page] "2024-03-01T00:00:00.000Z"
  = Ok (acme_document "2024-03-01T00:00:00.000Z")
  /\ In (outputStore (acme_store "p-acme" "Customer"))
        (stores (acme_document "2024-03-01T00:00:00.000Z"))
  /\ exists page s,
       In page [acme_page]
       /\ transformPage plain_number_to_string page = Ok s
       /\ outputStore (acme_store "p-acme" "Customer") = outputStore s
       /\ lastDelivery (outputStore (acme_store "p-acme" "Customer"))
          = match lastDeliveryDate s with
            | JNull => lastOrderDate s
            | d => d
            end.
Proof.
  split; [reflexivity|]. split; [left; reflexivity|].
  apply (lastDelivery_prefers_the_delivery_date plain_number_to_string
           [acme_page] "2024-03-01T00:00:00.000Z"
           (acme_document "2024-03-01T00:00:00.000Z"));
    [reflexivity | left; reflexivity].
Defined.

(** The delivery date wins although the order date is the later one. *)
Example older_delivery_date_is_published :
  lastOrderDate (acme_store "p-acme" "Customer") = JStr "2024-02-20"
  /\ lastDeliveryDate (acme_store "p-acme" "Customer") = JStr "2023-01-01"
  /\ map lastDelivery (stores (acme_document "2024-03-01T00:00:00.000Z"))
     = [JStr "2023-01-01"].
Proof. repeat split; reflexivity. Qed.

Lemma count_witness :
  exportStores plain_number_to_string [acme_page; lead_page; zero_page]
    "2024-03-01T00:00:00.000Z"
  = Ok (acme_document "2024-03-01T00:00:00.000Z")
  /\ count (acme_document "2024-03-01T00:00:00.000Z")
     = List.length (stores (acme_document "2024-03-01T00:00:00.000Z")).
Proof.
  split; [reflexivity|].
  apply (count_is_the_number_of_stores plain_number_to_string
           [acme_page; lead_page; zero_page] "2024-03-01T00:00:00.000Z").
  reflexivity.
Defined.

(** * Further properties of the scripts *)

Section AccessorProperties.

Variable fmt : float -> string.

(** ** Rich text *)

Lemma intercalate_empty (ss : list string) :
  intercalate "" ss = fold_right String.append "" ss.
Proof.
  induction ss as [|s [|s' rest] IH]; simpl.
  - reflexivity.
  - induction s; simpl; congruence.
  - simpl in IH. rewrite IH. reflexivity.
Qed.

Lemma mapM_plain_text (items : list value) (ss : list string) :
  Forall2 (fun item s => get item "plain_text" = Ok (JStr s)) items ss ->
  mapM (fun rt => get rt "plain_text") items = Ok (map JStr ss).
Proof.
  induction 1 as [|item s items ss Hi _ IH]; simpl; [reflexivity|].
  rewrite Hi. simpl. rewrite IH. reflexivity.
Qed.

Lemma join_strings (sep : string) (ss : list string) :
  join fmt sep (map JStr ss) = Ok (intercalate sep ss).
Proof.
  unfold join.
  assert (H : mapM (fun x => if nullish x then Ok "" else ToString fmt x)
                (map JStr ss) = Ok ss).
  { induction ss as [|s rest IH]; simpl; [reflexivity|].
    rewrite IH. reflexivity. }
  rewrite H. reflexivity.
Qed.

(** The fragments of a rich-text array are joined in order, with nothing
    between them; when the joined text is empty the result is [null], not
    the empty string. *)
Theorem getPlainText_joins_the_fragments (items : list value) (ss : list string) :
  Forall2 (fun item s => get item "plain_text" = Ok (JStr s)) items ss ->
  getPlainText fmt (JArr items)
  = Ok (if fold_right String.append "" ss =? "" then JNull
        else JStr (fold_right String.append "" ss)).
Proof.
  intros H. unfold getPlainText. simpl.
  rewrite (mapM_plain_text _ _ H). simpl.
  rewrite join_strings. simpl. rewrite intercalate_empty.
  unfold js_or. simpl.
  destruct (fold_right String.append "" ss =? ""); reflexivity.
Qed.

(** ** When the accessors throw *)

Lemma mapM_returns_iff {A B} (f : A -> result B) (l : list A) :
  returns (mapM f l) = true <-> Forall (fun a => returns (f a) = true) l.
Proof.
  induction l as [|a rest IH]; simpl.
  - split; [constructor | reflexivity].
  - rewrite Forall_cons_iff, <- IH.
    destruct (f a) as [b|e]; simpl.
    + destruct (mapM f rest); simpl; tauto.
    + split; [discriminate | intros [H _]; discriminate H].
Qed.

Lemma value_nested_ind (P : value -> Prop) :
  P JUndefined -> P JNull -> (forall b, P (JBool b)) -> (forall x, P (JNum x)) ->
  (forall s, P (JStr s)) ->
  (forall items, Forall P items -> P (JArr items)) ->
  (forall fields, P (JObj fields)) ->
  forall v, P v.
Proof.
  intros Hu Hn Hb Hx Hs Ha Ho.
  fix IH 1. intros [| |b|x|s|items|fields].
  - exact Hu.
  - exact Hn.
  - apply Hb.
  - apply Hx.
  - apply Hs.
  - apply Ha. induction items as [|i rest IHl]; constructor; [apply IH | exact IHl].
  - apply Ho.
Qed.

Lemma ToString_returns (v : value) : returns (ToString fmt v) = printable v.
Proof.
  induction v as [| |b|x|s|items IH|fields] using value_nested_ind;
    try reflexivity.
  - simpl.
    match goal with
    | |- returns (bind (?elements items) _) = _ =>
        assert (E : returns (elements items)
                    = forallb (fun x => nullish x || printable x) items)
    end.
    { induction IH as [|x rest Hx _ IHl]; simpl; [reflexivity|].
      destruct (nullish x); simpl.
      - rewrite <- IHl.
        match goal with |- returns (bind ?m _) = _ => destruct m end; reflexivity.
      - rewrite <- Hx. destruct (ToString fmt x); simpl; [|reflexivity].
        rewrite <- IHl.
        match goal with |- returns (bind ?m _) = _ => destruct m end; reflexivity. }
    rewrite <- E.
    match goal with |- returns (bind ?m _) = _ => destruct m end; reflexivity.
  - simpl. destruct (has_own "toString" fields); reflexivity.
Qed.

Lemma mapM_get_returns (k : string) (items : list value) :
  Forall (fun item => nullish item = false) items ->
  mapM (fun rt => get rt k) items = Ok (map (fun rt => opt_get rt k) items).
Proof.
  induction 1 as [|item rest Hi _ IH]; simpl; [reflexivity|].
  rewrite (get_not_nullish _ _ Hi). simpl. rewrite IH. reflexivity.
Qed.

(** Anything that is not an array reads as [null].  On an array
    [getPlainText] throws exactly when an element is [null] or [undefined]
    or has a [plain_text] that cannot be converted to a string. *)
Theorem getPlainText_returns_exactly :
  (forall v, isArray v = false -> getPlainText fmt v = Ok JNull)
  /\ (forall items,
        returns (getPlainText fmt (JArr items)) = true <->
        Forall (fun item =>
                  nullish item = false
                  /\ (nullish (opt_get item "plain_text")
                      || printable (opt_get item "plain_text")) = true)
               items).
Proof.
  split.
  - intros v Hv. unfold getPlainText. rewrite Hv, orb_true_r. reflexivity.
  - intros items. unfold getPlainText. simpl.
    destruct (mapM (fun rt => get rt "plain_text") items) as [texts|e] eqn:E;
      simpl.
    + assert (Hn : Forall (fun item => nullish item = false) items).
      { assert (Hr : returns (mapM (fun rt => get rt "plain_text") items) = true)
          by (rewrite E; reflexivity).
        apply mapM_returns_iff in Hr. eapply Forall_impl; [|exact Hr].
        intros a Ha. simpl in Ha. destruct a; try reflexivity; discriminate Ha. }
      rewrite (mapM_get_returns _ _ Hn) in E. injection E as <-.
      unfold join.
      match goal with
      | |- returns (bind (bind ?m _) _) = true <-> _ =>
          assert (Hm : returns m = true <->
                       Forall (fun item =>
                         (nullish (opt_get item "plain_text")
                          || printable (opt_get item "plain_text")) = true) items);
          [|destruct m; simpl in *]
      end.
      { rewrite mapM_returns_iff, Forall_map.
        split; intros H; (eapply Forall_impl; [|exact H]); intros a Ha; simpl in *.
        - destruct (nullish (opt_get a "plain_text")); [reflexivity|].
          rewrite <- ToString_returns. exact Ha.
        - destruct (nullish (opt_get a "plain_text")); [reflexivity|].
          rewrite ToString_returns. exact Ha. }
      * split; [|reflexivity]. intros _.
        apply Forall_and; [exact Hn | apply Hm; reflexivity].
      * split; [discriminate|]. intros H. apply Hm.
        eapply Forall_impl; [|exact H]. intros a [_ Ha]. exact Ha.
    + split; [discriminate|]. intros H.
      assert (Hn : Forall (fun item => nullish item = false) items).
      { eapply Forall_impl; [|exact H]. intros a [Ha _]. exact Ha. }
      rewrite (mapM_get_returns _ _ Hn) in E. discriminate E.
Qed.

Lemma get_nullish (v : value) (k : string) :
  nullish v = true -> get v k = Throw TypeError.
Proof. destruct v; simpl; intros H; try reflexivity; discriminate H. Qed.

Lemma opt_get_falsy (v : value) (k : string) :
  truthy v = false -> opt_get v k = JUndefined.
Proof. destruct v; simpl; intros H; try reflexivity; discriminate H. Qed.

(** For each of the eight rollup properties the script reads (none of
    them an array index or a member of a prototype, so that [get] is exact
    on every bag), [getRollupDate] throws in two situations only: the
    property bag is [null] or [undefined], or the named property says it
    is a rollup and has no nested [rollup] object. *)
Theorem getRollupDate_throws_exactly (props : value) (propName : string) :
  In propName rollup_properties ->
  (returns (getRollupDate props propName) = false <->
   nullish props = true
   \/ (strict_eq_str (opt_get (opt_get props propName) "type") "rollup" = true
       /\ nullish (opt_get (opt_get props propName) "rollup") = true)).
Proof.
  intros _. unfold getRollupDate.
  destruct (nullish props) eqn:Hn.
  - rewrite (get_nullish _ _ Hn). simpl. split; auto.
  - rewrite (get_not_nullish _ _ Hn). simpl.
    set (prop := opt_get props propName).
    destruct (truthy prop) eqn:Ht; simpl.
    + rewrite (get_not_nullish _ _ (truthy_not_nullish _ Ht)). simpl.
      destruct (strict_eq_str (opt_get prop "type") "rollup") eqn:Hty; simpl.
      * rewrite (get_not_nullish _ _ (truthy_not_nullish _ Ht)). simpl.
        destruct (nullish (opt_get prop "rollup")) eqn:Hr.
        -- rewrite (get_nullish _ _ Hr). simpl. split; auto.
        -- rewrite !(get_not_nullish _ _ Hr). simpl.
           destruct (strict_eq_str _ "date"); simpl.
           ++ destruct (truthy (opt_get (opt_get prop "rollup") "date")) eqn:Hd.
              ** rewrite (get_not_nullish _ _ (truthy_not_nullish _ Hd)). simpl.
                 split; [discriminate|]. intros [H | [_ H]]; discriminate H.
              ** split; [discriminate|]. intros [H | [_ H]]; discriminate H.
           ++ split; [discriminate|]. intros [H | [_ H]]; discriminate H.
      * split; [discriminate|]. intros [H | [H _]]; discriminate H.
    + rewrite (opt_get_falsy _ _ Ht). simpl.
      split; [discriminate|]. intros [H | [H _]]; discriminate H.
Qed.

(** For each of the eight rollup properties the script reads (on which
    [get] is exact for every bag), [getRollupDate] yields a date exactly
    when the property is typed
    ["rollup"], its rollup is typed ["date"] and has a non-empty
    [date.start]; the date is then the one the analysis script reads
    through [?.rollup?.date?.start]. *)
Theorem getRollupDate_yields_the_start (props : value) (propName : string) (v : value) :
  In propName rollup_properties ->
  ((getRollupDate props propName = Ok v /\ v <> JNull) <->
   (strict_eq_str (opt_get (opt_get props propName) "type") "rollup" = true
    /\ strict_eq_str (opt_get (opt_get (opt_get props propName) "rollup") "type")
         "date" = true
    /\ Analysis.rollup_start (opt_get props propName) = v
    /\ truthy v = true)).
Proof.
  intros _. unfold getRollupDate, Analysis.rollup_start.
  destruct (nullish props) eqn:Hn.
  - rewrite (get_nullish _ _ Hn). simpl.
    split; [intros [H _]; discriminate H|].
    intros [H _]. destruct props; discriminate.
  - rewrite (get_not_nullish _ _ Hn). simpl.
    set (prop := opt_get props propName).
    destruct (truthy prop) eqn:Ht; simpl.
    + rewrite (get_not_nullish _ _ (truthy_not_nullish _ Ht)). simpl.
      destruct (strict_eq_str (opt_get prop "type") "rollup") eqn:Hty; simpl.
      * rewrite (get_not_nullish _ _ (truthy_not_nullish _ Ht)). simpl.
        destruct (nullish (opt_get prop "rollup")) eqn:Hr.
        -- rewrite (get_nullish _ _ Hr). simpl.
           split; [intros [H _]; discriminate H|].
           intros (_ & H & _). destruct (opt_get prop "rollup"); discriminate.
        -- rewrite !(get_not_nullish _ _ Hr). simpl.
           destruct (strict_eq_str _ "date"); simpl.
           ++ set (date := opt_get (opt_get prop "rollup") "date").
              destruct (truthy date) eqn:Hd.
              ** rewrite (get_not_nullish _ _ (truthy_not_nullish _ Hd)). simpl.
                 unfold js_or.
                 destruct (truthy (opt_get date "start")) eqn:Hs.
                 --- split.
                     +++ intros [H _]. injection H as <-. auto.
                     +++ intros (_ & _ & <- & _). split; [reflexivity|].
                         intros C. rewrite C in Hs. discriminate Hs.
                 --- split.
                     +++ intros [H C]. injection H as <-. contradiction C. reflexivity.
                     +++ intros (_ & _ & <- & H). rewrite H in Hs. discriminate Hs.
              ** rewrite (opt_get_falsy _ _ Hd). split.
                 --- intros [H C]. injection H as <-. contradiction C. reflexivity.
                 --- intros (_ & _ & <- & H). discriminate H.
           ++ split.
              ** intros [H C]. injection H as <-. contradiction C. reflexivity.
              ** intros (_ & H & _). discriminate H.
      * split.
        -- intros [H C]. injection H as <-. contradiction C. reflexivity.
        -- intros (H & _). discriminate H.
    + rewrite (opt_get_falsy _ _ Ht). simpl. split.
      * intros [H C]. injection H as <-. contradiction C. reflexivity.
      * intros (H & _). discriminate H.
Qed.

(** [getMapLocation] yields a pair exactly for a property typed ["place"]
    whose [place] holds a number under [lat] and a number under [lon]; the
    pair is those two numbers, [lon] renamed [lng].  A coordinate given as
    a string yields nothing. *)
Theorem getMapLocation_yields_the_numbers (props : value) (x y : float) :
  getMapLocation props = Ok (JObj [("lat", JNum x); ("lng", JNum y)]) <->
  (strict_eq_str (opt_get (opt_get props "Map Location") "type") "place" = true
   /\ opt_get (opt_get (opt_get props "Map Location") "place") "lat" = JNum x
   /\ opt_get (opt_get (opt_get props "Map Location") "place") "lon" = JNum y).
Proof.
  unfold getMapLocation.
  destruct (nullish props) eqn:Hn.
  - rewrite (get_nullish _ _ Hn). simpl.
    split; [discriminate|]. intros [H _]. destruct props; discriminate.
  - rewrite (get_not_nullish _ _ Hn). simpl.
    set (prop := opt_get props "Map Location").
    destruct (truthy prop) eqn:Ht; simpl.
    + rewrite (get_not_nullish _ _ (truthy_not_nullish _ Ht)). simpl.
      destruct (strict_eq_str (opt_get prop "type") "place") eqn:Hty; simpl.
      * rewrite (get_not_nullish _ _ (truthy_not_nullish _ Ht)). simpl.
        set (place := opt_get prop "place").
        destruct (truthy place) eqn:Hp; simpl.
        -- rewrite !(get_not_nullish _ _ (truthy_not_nullish _ Hp)). simpl.
           destruct (opt_get place "lat") eqn:Hlat; simpl;
             try (split; [discriminate | intros (_ & H & _); discriminate H]).
           destruct (opt_get place "lon") eqn:Hlon; simpl;
             try (split; [discriminate | intros (_ & _ & H); discriminate H]).
           split.
           ++ intros H. injection H as <- <-. auto.
           ++ intros (_ & H1 & H2). injection H1 as <-. injection H2 as <-.
              reflexivity.
        -- rewrite (opt_get_falsy _ _ Hp).
           split; [discriminate | intros (_ & H & _); discriminate H].
      * split; [discriminate | intros (H & _); discriminate H].
    + rewrite (opt_get_falsy _ _ Ht). simpl.
      split; [discriminate | intros (H & _); discriminate H].
Qed.

(** [getStatus] and [getMapLocation] guard each nested read: on a property
    bag that is not [null] or [undefined] they return, whatever the bag
    holds. *)
Theorem guarded_accessors_never_throw (props : value) :
  nullish props = false ->
  returns (getStatus props) = true /\ returns (getMapLocation props) = true.
Proof.
  intros H. split; [apply getStatus_returns | apply getMapLocation_returns]; exact H.
Qed.

End AccessorProperties.

Section PipelineProperties.

Variable fmt : float -> string.

(** ** Product resolver: order *)

Ltac subseq_search :=
  solve [repeat first [apply subseq_nil | apply subseq_keep | apply subseq_skip]].

(** The products come out in the order of the table, each display name at
    the place of its first indicator field: the result is [display_names]
    with some names left out, so it holds five names at most. *)
Theorem products_follow_the_table (props : value) (ps : list string) :
  getProducts props = Ok ps ->
  subseq ps display_names /\ (List.length ps <= 5)%nat.
Proof.
  intros H. unfold getProducts, PRODUCT_COLUMNS in H.
  cbn [getProducts_loop] in H.
  bind_inv H. bind_inv H. bind_inv H. bind_inv H. bind_inv H. bind_inv H.
  unfold display_names.
  destruct (truthy v), (truthy v0), (truthy v1), (truthy v2), (truthy v3),
    (truthy v4); cbn in H; injection H as <-;
    (split; [subseq_search | simpl; lia]).
Qed.

(** ** Record transformer: what it reads *)

Lemma getProducts_loop_congr (fs fs' : list (string * value))
    (entries : list (string * string)) :
  (forall p d, In (p, d) entries -> lookup p fs = lookup p fs') ->
  forall acc, getProducts_loop (JObj fs) entries acc
              = getProducts_loop (JObj fs') entries acc.
Proof.
  induction entries as [|[p d] rest IH]; intros H acc; [reflexivity|].
  cbn [getProducts_loop].
  assert (E : getRollupDate (JObj fs) p = getRollupDate (JObj fs') p).
  { unfold getRollupDate. cbn [get].
    rewrite (H p d) by (left; reflexivity). reflexivity. }
  rewrite E. destruct (getRollupDate (JObj fs') p); [simpl | reflexivity].
  apply IH. intros p' d' Hin. apply (H p' d'). right. exact Hin.
Qed.

(** A store depends on the page's [id] and on the thirteen properties of
    [read_properties] only: two pages that agree on those transform alike,
    whatever else their property bags hold. *)
Theorem transformPage_reads_only_its_properties
    (page page' : value) (fs fs' : list (string * value)) :
  get page "properties" = Ok (JObj fs) ->
  get page' "properties" = Ok (JObj fs') ->
  get page "id" = get page' "id" ->
  (forall key, In key read_properties -> lookup key fs = lookup key fs') ->
  transformPage fmt page = transformPage fmt page'.
Proof.
  intros Hp Hp' Hid H.
  assert (Hk : forall key, In key read_properties ->
                 get (JObj fs) key = get (JObj fs') key).
  { intros key Hin. simpl. rewrite (H key Hin). reflexivity. }
  assert (Ht : getTitle fmt (JObj fs) = getTitle fmt (JObj fs')).
  { unfold getTitle. rewrite Hk by (simpl; auto). reflexivity. }
  assert (Hs : getStatus (JObj fs) = getStatus (JObj fs')).
  { unfold getStatus. rewrite Hk by (simpl; auto). reflexivity. }
  assert (Hr : forall key, In key read_properties ->
                 getRollupDate (JObj fs) key = getRollupDate (JObj fs') key).
  { intros key Hin. unfold getRollupDate. rewrite Hk by exact Hin. reflexivity. }
  assert (Hl : getMapLocation (JObj fs) = getMapLocation (JObj fs')).
  { unfold getMapLocation. rewrite Hk by (simpl; auto 10). reflexivity. }
  assert (Hg : getProducts (JObj fs) = getProducts (JObj fs')).
  { unfold getProducts. apply getProducts_loop_congr. intros p d Hin.
    apply H. unfold read_properties. apply in_or_app. right.
    change p with (fst (p, d)). apply in_map. exact Hin. }
  unfold transformPage. rewrite Hp, Hp'. cbn [bind].
  rewrite Ht, Hs, Hl, Hg.
  rewrite (Hk "Address") by (simpl; auto).
  rewrite (Hk "City") by (simpl; auto).
  rewrite (Hr "Last Order Date") by (simpl; auto 10).
  rewrite (Hr "Last Delivery Date") by (simpl; auto 10).
  rewrite Hid. reflexivity.
Qed.

(** ** The export as a whole *)

Lemma mapM_In_forward {A B} (f : A -> result B) (l : list A) :
  forall l' a, mapM f l = Ok l' -> In a l -> exists b, f a = Ok b /\ In b l'.
Proof.
  induction l as [|x rest IH]; simpl; intros l' a H Ha; [destruct Ha|].
  bind_inv H. bind_inv H. injection H as <-.
  destruct Ha as [<- | Ha].
  - exists v. simpl. auto.
  - destruct (IH _ _ E0 Ha) as (b & Hb & Hin). exists b. simpl. auto.
Qed.

Lemma mapM_app {A B} (f : A -> result B) (l1 l2 : list A) :
  mapM f (l1 ++ l2)
  = (x <- mapM f l1 ;; y <- mapM f l2 ;; Ok (x ++ y)%list).
Proof.
  induction l1 as [|a rest IH]; simpl.
  - destruct (mapM f l2); reflexivity.
  - destruct (f a); simpl; [|reflexivity]. rewrite IH.
    destruct (mapM f rest); simpl; [|reflexivity].
    destruct (mapM f l2); reflexivity.
Qed.

Lemma mapM_length {A B} (f : A -> result B) (l : list A) :
  forall l', mapM f l = Ok l' -> List.length l' = List.length l.
Proof.
  induction l as [|a rest IH]; simpl; intros l' H.
  - injection H as <-. reflexivity.
  - bind_inv H. bind_inv H. injection H as <-. simpl. rewrite (IH _ E0). reflexivity.
Qed.

(** Nothing but the name, the two coordinates and the status decides
    publication: a fetched page with a title, a whitelisted status and a
    place whose latitude and longitude are numbers other than zero and NaN
    is in the document, with or without address, dates and products. *)
Theorem complete_customer_is_published
    (pages : list value) (now : string) (doc : ExportDocument)
    (page props : value) (n st : string) (x y : float) :
  exportStores fmt pages now = Ok doc ->
  In page pages ->
  get page "properties" = Ok props ->
  getTitle fmt props = Ok (JStr n) ->
  getStatus props = Ok (JStr st) ->
  In st VALID_ACCOUNT_STATUSES ->
  getMapLocation props = Ok (JObj [("lat", JNum x); ("lng", JNum y)]) ->
  truthy (JNum x) = true ->
  truthy (JNum y) = true ->
  exists s, transformPage fmt page = Ok s
            /\ out_name (outputStore s) = JStr n
            /\ out_lat (outputStore s) = JNum x
            /\ out_lng (outputStore s) = JNum y
            /\ In (outputStore s) (stores doc).
Proof.
  intros Hdoc Hin Hp Hn Hst Hw Hl Hx Hy.
  destruct (exportStores_inv _ _ _ _ Hdoc) as (all & Hall & _ & _ & Hs).
  destruct (mapM_In_forward _ _ _ _ Hall Hin) as (s & Ht & Hsin).
  destruct (transformPage_inv _ _ _ Ht)
    as (props' & street & city & loc & Hp' & Hn' & _ & _ & Hst' & _ & _ & Hl' & _ & _
        & Hlat & Hlng).
  rewrite Hp in Hp'. injection Hp' as <-.
  rewrite Hn in Hn'. injection Hn' as Hname.
  rewrite Hst in Hst'. injection Hst' as Hstatus.
  rewrite Hl in Hl'. injection Hl' as <-.
  unfold js_or in Hlat, Hlng. cbn [opt_get lookup String.eqb Ascii.eqb Bool.eqb] in Hlat, Hlng.
  rewrite Hx in Hlat. rewrite Hy in Hlng.
  assert (Hne : truthy (JStr n) = true).
  { destruct (getTitle_shape _ _ _ Hn) as [C | (n' & C & Hn')]; [discriminate C|].
    injection C as ->. simpl. destruct (String.eqb_spec n' ""); [contradiction | reflexivity]. }
  exists s. split; [exact Ht|]. simpl.
  rewrite <- Hname, Hlat, Hlng. repeat split.
  rewrite Hs. apply in_map. unfold filterStores. apply filter_In.
  split; [exact Hsin|].
  assert (Hi : includes VALID_ACCOUNT_STATUSES (JStr st) = true).
  { cbn [includes]. apply existsb_exists. exists st.
    split; [exact Hw | apply String.eqb_refl]. }
  unfold publishable. rewrite <- Hname, Hne, Hlat, Hlng, Hx, Hy, <- Hstatus, Hi.
  reflexivity.
Qed.

(** Exporting two batches of pages one after the other gives the records
    of the first followed by the records of the second, and the counts add
    up: the order of the API is kept, and no record affects another. *)
Theorem exportStores_of_consecutive_batches
    (pages1 pages2 : list value) (now : string) (doc1 doc2 : ExportDocument) :
  exportStores fmt pages1 now = Ok doc1 ->
  exportStores fmt pages2 now = Ok doc2 ->
  exportStores fmt (pages1 ++ pages2) now
  = Ok {| generated := now;
          count := count doc1 + count doc2;
          stores := stores doc1 ++ stores doc2 |}.
Proof.
  intros H1 H2.
  destruct (exportStores_inv _ _ _ _ H1) as (all1 & Ha1 & _ & Hc1 & Hs1).
  destruct (exportStores_inv _ _ _ _ H2) as (all2 & Ha2 & _ & Hc2 & Hs2).
  unfold exportStores. rewrite mapM_app, Ha1, Ha2. simpl.
  unfold filterStores in *. rewrite filter_app, map_app, length_app.
  rewrite Hc1, Hc2, Hs1, Hs2. reflexivity.
Qed.

(** Two exports of the same pages differ in the [generated] stamp only. *)
Theorem exportStores_twice
    (pages : list value) (now now' : string) (doc : ExportDocument) :
  exportStores fmt pages now = Ok doc ->
  exportStores fmt pages now'
  = Ok {| generated := now'; count := count doc; stores := stores doc |}.
Proof.
  intros H. destruct (exportStores_inv _ _ _ _ H) as (all & Ha & _ & Hc & Hs).
  unfold exportStores. rewrite Ha. simpl. rewrite Hc, Hs. reflexivity.
Qed.

(** The document never holds more records than pages were fetched. *)
Theorem exportStores_count_bound
    (pages : list value) (now : string) (doc : ExportDocument) :
  exportStores fmt pages now = Ok doc ->
  (count doc <= List.length pages)%nat.
Proof.
  intros H. destruct (exportStores_inv _ _ _ _ H) as (all & Ha & _ & Hc & _).
  rewrite Hc, length_map, <- (mapM_length _ _ _ Ha).
  unfold filterStores. apply filter_length_le.
Qed.

(** ** When the export throws *)

Lemma getProducts_loop_returns_inv (props : value) (entries : list (string * string)) :
  forall acc, returns (getProducts_loop props entries acc) = true ->
  forall p d, In (p, d) entries -> returns (getRollupDate props p) = true.
Proof.
  induction entries as [|[p0 d0] rest IH]; simpl; intros acc H p d Hin;
    [destruct Hin|].
  destruct (getRollupDate props p0) as [v|e] eqn:E; [simpl in H | discriminate H].
  destruct Hin as [Heq | Hin].
  - injection Heq as <- <-. rewrite E. reflexivity.
  - eapply IH; eassumption.
Qed.

(** [transformPage] throws exactly when the page is [null] or [undefined]
    or one of three accessors throws: the title, the rich text of the
    address or of the city, the rollup date of one of the eight rollup
    properties. *)
Theorem transformPage_returns_exactly (page : value) :
  returns (transformPage fmt page) = true <->
  exists props,
    get page "properties" = Ok props
    /\ returns (getTitle fmt props) = true
    /\ returns (getPlainText fmt (opt_get (opt_get props "Address") "rich_text")) = true
    /\ returns (getPlainText fmt (opt_get (opt_get props "City") "rich_text")) = true
    /\ (forall p, In p ("Last Order Date" :: "Last Delivery Date"
                          :: map fst PRODUCT_COLUMNS) ->
                  returns (getRollupDate props p) = true).
Proof.
  split.
  - intros H. destruct (transformPage fmt page) as [s|] eqn:Ht; [|discriminate H].
    destruct (transformPage_inv _ _ _ Ht)
      as (props & street & city & loc & Hp & Hn & Ha & Hc & _ & Ho & Hd & _ & Hg & _).
    exists props. rewrite Hn, Ha, Hc. repeat split; try assumption.
    intros p [<- | [<- | Hin]].
    + rewrite Ho. reflexivity.
    + rewrite Hd. reflexivity.
    + apply in_map_iff in Hin. destruct Hin as ([p' d] & <- & Hin).
      apply (getProducts_loop_returns_inv props PRODUCT_COLUMNS []) with (d := d).
      * unfold getProducts in Hg. rewrite Hg. reflexivity.
      * exact Hin.
  - intros (props & Hp & Hn & Ha & Hc & Hr).
    eapply transformPage_returns; eassumption.
Qed.

(** The export is all or nothing: it throws exactly when the transformer
    throws on one of the fetched pages. *)
Theorem exportStores_returns_exactly (pages : list value) (now : string) :
  returns (exportStores fmt pages now) = true <->
  Forall (fun page => returns (transformPage fmt page) = true) pages.
Proof.
  rewrite <- mapM_returns_iff. unfold exportStores.
  destruct (mapM (transformPage fmt) pages); simpl; tauto.
Qed.

End PipelineProperties.

Section ReportInvariants.

Variable fmt : float -> string.
Variable Date_time : value -> result (option Z).
Variable sixtyDaysAgo : option Z.

Lemma js_or_truthy (a b : value) : truthy b = true -> truthy (js_or a b) = true.
Proof. intros H. unfold js_or. destruct (truthy a) eqn:E; assumption. Qed.

Lemma is_recent_truthy (d : value) :
  Analysis.is_recent Date_time sixtyDaysAgo d = Ok true -> truthy d = true.
Proof. intros H. apply is_recent_true in H. tauto. Qed.

(** What one turn of the loop does to the report. *)
Lemma analyzePage_step (st st' : Analysis.Report) (page : value) :
  Analysis.analyzePage fmt Date_time sixtyDaysAgo st page = Ok st' ->
  exists props,
    get page "properties" = Ok props
    /\ (Analysis.withOrders st <= Analysis.withOrders st' <= S (Analysis.withOrders st))%nat
    /\ ((Analysis.withCoords st <= Analysis.withCoords st' <= S (Analysis.withCoords st))%nat
        /\ Analysis.customerWithCoords st' = Analysis.customerWithCoords st
        /\ Analysis.recentCustomers st' = Analysis.recentCustomers st
        \/ strict_eq_str (Analysis.status_of props) "Customer" = true
           /\ Analysis.withCoords st' = S (Analysis.withCoords st)
           /\ Analysis.customerWithCoords st' = S (Analysis.customerWithCoords st)
           /\ (Analysis.recentCustomers st' = Analysis.recentCustomers st
               \/ exists e,
                    Analysis.recentCustomers st'
                    = (Analysis.recentCustomers st ++ [e])%list
                    /\ is_number (Analysis.rc_lat e) = true
                    /\ truthy (Analysis.rc_lastOrder e) = true
                    /\ truthy (Analysis.rc_name e) = true)).
Proof.
  intros H. unfold Analysis.analyzePage in H.
  bind_inv H. exists v. split; [exact E|].
  bind_inv H.
  assert (Hn : nullish v = false) by (eapply get_Ok_not_nullish; eassumption).
  rewrite (get_not_nullish _ _ Hn) in E0. injection E0 as <-.
  bind_inv H. clear E0 v0.
  rewrite !(get_not_nullish _ _ Hn) in H. cbn [bind] in H.
  fold (Analysis.status_of v) in H. fold (Analysis.mapLoc_of v) in H.
  bind_inv H.
  set (orders := truthy (js_or (Analysis.rollup_start (opt_get v "Last Order Date"))
                               (Analysis.rollup_start (opt_get v "Last Delivery Date")))) in *.
  assert (Ho : forall n, (n <= (if orders then S n else n) <= S n)%nat)
    by (intros n; destruct orders; lia).
  destruct (strict_eq_str (Analysis.status_of v) "Customer") eqn:Hs;
    destruct v0; cbn [andb] in H.
  - bind_inv H.
    destruct (truthy (Analysis.mapLoc_of v)) eqn:Hm; [|discriminate E0].
    bind_inv E0. injection E0 as Hnum.
    destruct v0.
    + bind_inv H. bind_inv H. injection H as <-. cbn.
      split; [apply Ho|]. right. repeat split. right.
      eexists. split; [reflexivity|]. cbn.
      split; [congruence|]. split.
      * eapply is_recent_truthy. eassumption.
      * apply js_or_truthy. reflexivity.
    + injection H as <-. cbn. split; [apply Ho|]. right. repeat split. left. reflexivity.
  - injection H as <-. cbn. split; [apply Ho|]. left. repeat split; lia.
  - injection H as <-. cbn. split; [apply Ho|]. left. repeat split; lia.
  - injection H as <-. cbn. split; [apply Ho|]. left. repeat split; lia.
Qed.

Lemma loop_keeps_report_ok (pages : list value) :
  forall n st r,
    report_ok n st ->
    Analysis.loop fmt Date_time sixtyDaysAgo st pages = Ok r ->
    report_ok (n + List.length pages) r.
Proof.
  induction pages as [|page rest IH]; simpl; intros n st r Hst H.
  - injection H as <-. rewrite Nat.add_0_r. exact Hst.
  - bind_inv H. replace (n + S (List.length rest))%nat
      with (S n + List.length rest)%nat by lia.
    apply (IH _ v); [|exact H].
    destruct Hst as (H1 & H2 & H3 & H4 & H5).
    destruct (analyzePage_step _ _ _ E) as (props & _ & Hord & Hcases).
    unfold report_ok.
    destruct Hcases as [(Hc & Hcc & Hr) | (_ & Hc & Hcc & Hr)].
    + rewrite Hcc, Hr. repeat split; try lia. exact H5.
    + rewrite Hc, Hcc.
      destruct Hr as [Hr | (e & Hr & He)]; rewrite Hr.
      * repeat split; try lia. exact H5.
      * rewrite length_app. simpl. repeat split; try lia.
        apply Forall_app. split; [exact H5|]. constructor; [exact He | constructor].
Qed.

(** The figures of the report are ordered: the customers with coordinates
    are among the records with coordinates, the recent customers among the
    customers with coordinates, and no counter exceeds the number of
    pages. *)
Theorem report_counters_are_ordered (pages : list value) (r : Analysis.Report) :
  Analysis.main fmt Date_time sixtyDaysAgo pages = Ok r ->
  (List.length (Analysis.recentCustomers r) <= Analysis.customerWithCoords r)%nat
  /\ (Analysis.customerWithCoords r <= Analysis.withCoords r)%nat
  /\ (Analysis.withCoords r <= List.length pages)%nat
  /\ (Analysis.withOrders r <= List.length pages)%nat.
Proof.
  intros H. unfold Analysis.main in H.
  assert (H0 : report_ok 0 Analysis.initial).
  { unfold report_ok. simpl. repeat split; try lia. constructor. }
  destruct (loop_keeps_report_ok _ _ _ _ H0 H) as (H1 & H2 & H3 & H4 & _).
  simpl in H2, H3. tauto.
Qed.

(** Every recent customer of the report has a numeric latitude, a date
    and a name (["Unknown"] when the page has none); its longitude is
    whatever the page holds under [lon]. *)
Theorem recent_customers_are_located_and_dated
    (pages : list value) (r : Analysis.Report) (e : Analysis.RecentCustomer) :
  Analysis.main fmt Date_time sixtyDaysAgo pages = Ok r ->
  In e (Analysis.recentCustomers r) ->
  (exists x, Analysis.rc_lat e = JNum x)
  /\ truthy (Analysis.rc_lastOrder e) = true
  /\ truthy (Analysis.rc_name e) = true.
Proof.
  intros H Hin. unfold Analysis.main in H.
  assert (H0 : report_ok 0 Analysis.initial).
  { unfold report_ok. simpl. repeat split; try lia. constructor. }
  destruct (loop_keeps_report_ok _ _ _ _ H0 H) as (_ & _ & _ & _ & H5).
  rewrite Forall_forall in H5. destruct (H5 _ Hin) as (Hl & Hd & Hn).
  split; [|tauto].
  destruct (Analysis.rc_lat e); try discriminate Hl. eauto.
Qed.

(** A record whose status is not exactly "Customer" (so also "Customer
    Overdue", which the export publishes) is never counted as a customer
    and never listed as a recent customer. *)
Theorem only_customers_are_listed
    (st st' : Analysis.Report) (page props : value) :
  get page "properties" = Ok props ->
  Analysis.analyzePage fmt Date_time sixtyDaysAgo st page = Ok st' ->
  strict_eq_str (Analysis.status_of props) "Customer" = false ->
  Analysis.customerWithCoords st' = Analysis.customerWithCoords st
  /\ Analysis.recentCustomers st' = Analysis.recentCustomers st.
Proof.
  intros Hp H Hs.
  destruct (analyzePage_step _ _ _ H) as (props' & Hp' & _ & Hcases).
  rewrite Hp in Hp'. injection Hp' as <-.
  destruct Hcases as [(_ & Hc & Hr) | (C & _)]; [tauto|].
  rewrite C in Hs. discriminate Hs.
Qed.

End ReportInvariants.

Section RuntimeProperties.

Variable fmt : float -> string.
Variable env_token : option string.
Variable env_database_id : option string.
Variable fetch : list Request -> Request -> outcome Response.
Variable now : string.
Variable stringify : ExportDocument -> string.
Variable outputPath : outcome string.
Variable writeFileSync : string -> string -> option thrown.

(** ** Pagination *)

Lemma requests_of_app (a b : list event) :
  requests_of (a ++ b) = (requests_of a ++ requests_of b)%list.
Proof.
  induction a as [|e rest IH]; simpl; [reflexivity|].
  destruct e; simpl; rewrite IH; reflexivity.
Qed.

Lemma read_page_served (data : value) (items : list value) (more cursor : value) :
  get data "results" = Ok (JArr items) ->
  get data "has_more" = Ok more ->
  get data "next_cursor" = Ok cursor ->
  read_page data = Ok (items, more, cursor).
Proof. intros H1 H2 H3. unfold read_page. rewrite H1, H2, H3. reflexivity. Qed.

Lemma last_cons_default {A} (l : list A) (a d : A) : last (a :: l) d = last l a.
Proof.
  revert a d. induction l as [|b rest IH]; intros a d; [reflexivity|].
  change (last (a :: b :: rest) d) with (last (b :: rest) d).
  rewrite (IH b d), (IH b a). reflexivity.
Qed.

(** As long as the API serves pages that announce more, the loop takes
    them one by one: after [length batches] turns it stands at the state
    reached by appending their results, with the last cursor received. *)
Lemma fetch_loop_prefix (batches : list (list value * value)) :
  forall k trace pages cursor,
    List.length (requests_of trace) = k ->
    (forall j items c, nth_error batches j = Some (items, c) ->
                       serves fetch (k + j) items (JBool true) c) ->
    exists trace',
      (forall fuel,
          fetch_loop fmt env_token env_database_id fetch (List.length batches + fuel) trace pages cursor
          = fetch_loop fmt env_token env_database_id fetch fuel trace' (pages ++ List.concat (map fst batches))%list
              (last (map snd batches) cursor))
      /\ List.length (requests_of trace') = (k + List.length batches)%nat
      /\ map start_cursor (requests_of trace')
         = (map start_cursor (requests_of trace)
            ++ removelast (cursor :: map snd batches))%list.
Proof.
  induction batches as [|[items c] rest IH]; intros k trace pages cursor Hk Hs.
  - exists trace. simpl. rewrite !app_nil_r, Nat.add_0_r. auto.
  - destruct (Hs 0%nat items c eq_refl (requests_of trace)
                (query env_token (NOTION_DATABASE_ID env_database_id) cursor))
      as (response & data & Hf & Hok & Hj & Hr & Hm & Hc);
      [rewrite Nat.add_0_r; exact Hk|].
    set (request := query env_token (NOTION_DATABASE_ID env_database_id) cursor).
    set (trace2 := ((trace ++ [Fetch request])
                    ++ [ConsoleLog ("Fetched "
                                    ++ nat_to_string (List.length (pages ++ items))
                                    ++ " pages...")])%list).
    assert (Hreq : requests_of trace2 = (requests_of trace ++ [request])%list).
    { unfold trace2. rewrite !requests_of_app. simpl. rewrite app_nil_r. reflexivity. }
    destruct (IH (S k) trace2 (pages ++ items)%list c) as (trace' & Hrun & Hlen & Hcur).
    + rewrite Hreq, length_app. simpl. lia.
    + intros j items' c' Hn. replace (S k + j)%nat with (k + S j)%nat by lia.
      apply Hs. exact Hn.
    + exists trace'. split; [|split].
      * intros fuel. subst trace2 request.
        cbn [List.length Nat.add fetch_loop].
        rewrite Hf, Hok. cbn [negb]. rewrite Hj.
        rewrite (read_page_served _ _ _ _ Hr Hm Hc). cbn [truthy].
        rewrite Hrun. cbn [map fst snd List.concat].
        rewrite <- app_assoc, last_cons_default. reflexivity.
      * rewrite Hlen. simpl. lia.
      * rewrite Hcur, Hreq, map_app. simpl. rewrite <- app_assoc. reflexivity.
Qed.

Lemma cursors_sent (cursor : value) (cs : list value) :
  (removelast (cursor :: cs) ++ [last cs cursor])%list = cursor :: cs.
Proof.
  rewrite <- (last_cons_default cs cursor JUndefined).
  symmetry. apply app_removelast_last. discriminate.
Qed.

(** Pagination is complete and ordered: when the API serves a run of pages
    that announce more and then a page that does not, [fetchAllPages]
    returns the results of all of them, in the order received.  It sends
    one request per page, the first without a cursor and each later one
    with the cursor of the page before. *)
Theorem fetchAllPages_collects_every_page
    (batches : list (list value * value)) (last_items : list value)
    (last_more last_cursor : value) (trace : list event) (fuel : nat) :
  requests_of trace = [] ->
  (forall j items c, nth_error batches j = Some (items, c) ->
                     serves fetch j items (JBool true) c) ->
  serves fetch (List.length batches) last_items last_more last_cursor ->
  truthy last_more = false ->
  (List.length batches < fuel)%nat ->
  exists trace',
    fetchAllPages fmt env_token env_database_id fetch fuel trace
    = Some (trace', Returned (List.concat (map fst batches) ++ last_items)%list)
    /\ map start_cursor (requests_of trace') = JUndefined :: map snd batches.
Proof.
  intros Ht Hs Hl Hm Hf.
  destruct (fetch_loop_prefix batches 0 trace [] JUndefined)
    as (trace1 & Hrun & Hlen & Hcur).
  { rewrite Ht. reflexivity. }
  { intros j items c Hn. apply Hs. exact Hn. }
  replace fuel with (List.length batches + S (fuel - S (List.length batches)))%nat by lia.
  unfold fetchAllPages. rewrite Hrun.
  set (cursor := last (map snd batches) JUndefined) in *.
  set (request := query env_token (NOTION_DATABASE_ID env_database_id) cursor).
  destruct (Hl (requests_of trace1) request Hlen)
    as (response & data & Hfe & Hok & Hj & Hr & Hmo & Hc).
  subst request. cbn [fetch_loop]. rewrite Hfe, Hok. cbn [negb]. rewrite Hj.
  rewrite (read_page_served _ _ _ _ Hr Hmo Hc), Hm.
  eexists. split; [reflexivity|].
  rewrite !requests_of_app, !map_app. simpl. rewrite app_nil_r, Hcur, Ht. simpl.
  subst cursor. exact (cursors_sent JUndefined (map snd batches)).
Qed.

(** A response that is not ok ends the run on an [Error] that carries the
    status and the body of that response; the pages fetched before it are
    not returned, and no further request is sent. *)
Theorem fetchAllPages_fails_on_a_refusal
    (batches : list (list value * value)) (code : float) (body : string)
    (trace : list event) (fuel : nat) :
  requests_of trace = [] ->
  (forall j items c, nth_error batches j = Some (items, c) ->
                     serves fetch j items (JBool true) c) ->
  refuses fetch (List.length batches) code body ->
  (List.length batches < fuel)%nat ->
  exists trace',
    fetchAllPages fmt env_token env_database_id fetch fuel trace
    = Some (trace',
            Raised (ApiError ("Notion API error: " ++ fmt code ++ " - " ++ body)))
    /\ List.length (requests_of trace') = S (List.length batches).
Proof.
  intros Ht Hs Hl Hf.
  destruct (fetch_loop_prefix batches 0 trace [] JUndefined)
    as (trace1 & Hrun & Hlen & Hcur).
  { rewrite Ht. reflexivity. }
  { intros j items c Hn. apply Hs. exact Hn. }
  replace fuel with (List.length batches + S (fuel - S (List.length batches)))%nat by lia.
  unfold fetchAllPages. rewrite Hrun.
  set (cursor := last (map snd batches) JUndefined) in *.
  set (request := query env_token (NOTION_DATABASE_ID env_database_id) cursor).
  destruct (Hl (requests_of trace1) request Hlen) as (response & Hfe & Hok & Hst & Hb).
  subst request. cbn [fetch_loop]. rewrite Hfe, Hok. cbn [negb]. rewrite Hb, Hst.
  eexists. split; [reflexivity|].
  rewrite requests_of_app, length_app, Hlen. simpl. lia.
Qed.

(** The loop has no limit of its own: against an API that announces more
    pages after every page, [fetchAllPages] does not return, however many
    turns it is given. *)
Theorem fetchAllPages_has_no_page_limit (fuel : nat) (trace : list event) :
  (forall k, exists items c, serves fetch k items (JBool true) c) ->
  fetchAllPages fmt env_token env_database_id fetch fuel trace = None.
Proof.
  intros Hs. unfold fetchAllPages.
  generalize (@nil value) as pages. generalize JUndefined as cursor. revert trace.
  induction fuel as [|fuel IH]; intros trace cursor pages; [reflexivity|].
  destruct (Hs (List.length (requests_of trace))) as (items & c & Hk).
  destruct (Hk (requests_of trace)
              (query env_token (NOTION_DATABASE_ID env_database_id) cursor) eq_refl)
    as (response & data & Hf & Hok & Hj & Hr & Hm & Hc).
  cbn [fetch_loop]. rewrite Hf, Hok. cbn [negb]. rewrite Hj.
  rewrite (read_page_served _ _ _ _ Hr Hm Hc). cbn [truthy].
  apply IH.
Qed.

(** ** What a run adds to the trace *)

Lemma fetch_loop_trace (fuel : nat) :
  forall trace pages cursor trace' o,
    fetch_loop fmt env_token env_database_id fetch fuel trace pages cursor = Some (trace', o) ->
    exists added,
      trace' = (trace ++ added)%list
      /\ Forall quiet added
      /\ Forall (fun r => exists c,
                   r = query env_token (NOTION_DATABASE_ID env_database_id) c)
                (requests_of added).
Proof.
  induction fuel as [|fuel IH]; intros trace pages cursor trace' o H;
    [discriminate H|].
  cbn [fetch_loop] in H.
  set (request := query env_token (NOTION_DATABASE_ID env_database_id) cursor) in *.
  assert (H1 : exists added,
             (trace ++ [Fetch request])%list = (trace ++ added)%list
             /\ Forall quiet added
             /\ Forall (fun r => exists c,
                          r = query env_token (NOTION_DATABASE_ID env_database_id) c)
                       (requests_of added)).
  { exists [Fetch request]. split; [reflexivity|]. split.
    - constructor; [exact I | constructor].
    - simpl. constructor; [exists cursor; reflexivity | constructor]. }
  destruct (fetch (requests_of trace) request) as [response|t];
    [|injection H as <- <-; exact H1].
  destruct (negb (ok response)).
  { destruct (text response); injection H as <- <-; exact H1. }
  destruct (json response) as [data|t]; [|injection H as <- <-; exact H1].
  destruct (read_page data) as [[[items more] next]|e];
    [|injection H as <- <-; exact H1].
  set (line := ConsoleLog _) in H.
  assert (H2 : exists added,
             ((trace ++ [Fetch request]) ++ [line])%list = (trace ++ added)%list
             /\ Forall quiet added
             /\ Forall (fun r => exists c,
                          r = query env_token (NOTION_DATABASE_ID env_database_id) c)
                       (requests_of added)).
  { exists [Fetch request; line]. split; [rewrite <- app_assoc; reflexivity|]. split.
    - constructor; [exact I | constructor; [exact I | constructor]].
    - simpl. constructor; [exists cursor; reflexivity | constructor]. }
  destruct (truthy more); [|injection H as <- <-; exact H2].
  destruct (IH _ _ _ _ _ H) as (added & -> & Hq & Hr).
  exists ([Fetch request; line] ++ added)%list. split; [|split].
  - rewrite <- !app_assoc. reflexivity.
  - apply Forall_app. split; [|exact Hq].
    constructor; [exact I | constructor; [exact I | constructor]].
  - rewrite requests_of_app. apply Forall_app. split; [|exact Hr].
    simpl. constructor; [exists cursor; reflexivity | constructor].
Qed.

(** The run of [exportStores] unfolds into the fetch followed by the pure
    pipeline. *)
Lemma exportStores_run_is_fetch_then_export
    (fuel : nat) (trace trace' : list event) (o : outcome ExportDocument) :
  exportStores_run fmt env_token env_database_id fetch now fuel trace = Some (trace', o) ->
  exists header trace1 fetched,
    fetchAllPages fmt env_token env_database_id fetch fuel (trace ++ header)
    = Some (trace1, fetched)
    /\ requests_of header = []
    /\ o = match fetched with
           | Raised t => Raised t
           | Returned pages => lift (exportStores fmt pages now)
           end.
Proof.
  unfold exportStores_run. intros H.
  set (header := [ConsoleLog "Starting Notion export..."; _; _; _; _]) in H.
  exists header.
  destruct (fetchAllPages fmt env_token env_database_id fetch fuel (trace ++ header))
    as [[trace1 [pages|t]]|]; [| |discriminate H].
  - exists trace1, (Returned pages). split; [reflexivity|]. split; [reflexivity|].
    unfold exportStores.
    destruct (mapM (transformPage fmt) pages); injection H as <- <-; reflexivity.
  - exists trace1, (Raised t). injection H as <- <-. auto.
Qed.

Lemma exportStores_run_trace (fuel : nat) (trace trace' : list event)
    (o : outcome ExportDocument) :
  exportStores_run fmt env_token env_database_id fetch now fuel trace = Some (trace', o) ->
  exists added,
    trace' = (trace ++ added)%list
    /\ Forall quiet added
    /\ Forall (fun r => exists c,
                 r = query env_token (NOTION_DATABASE_ID env_database_id) c)
              (requests_of added).
Proof.
  unfold exportStores_run, fetchAllPages. intros H.
  set (header := [ConsoleLog "Starting Notion export..."; _; _; _; _]) in H.
  destruct (fetch_loop fmt env_token env_database_id fetch fuel (trace ++ header) [] JUndefined)
    as [[trace1 fetched]|] eqn:Hf; [|discriminate H].
  destruct (fetch_loop_trace _ _ _ _ _ _ Hf) as (added & -> & Hq & Hr).
  assert (Hh : Forall quiet header) by (repeat constructor).
  destruct fetched as [pages|t].
  - set (total := ConsoleLog _) in H.
    destruct (mapM (transformPage fmt) pages).
    + set (kept := ConsoleLog _) in H. injection H as <- <-.
      exists (header ++ added ++ [total; kept])%list. split; [|split].
      * rewrite <- !app_assoc. reflexivity.
      * repeat (apply Forall_app; split); try assumption. repeat constructor.
      * rewrite !requests_of_app. simpl. rewrite app_nil_r. exact Hr.
    + injection H as <- <-.
      exists (header ++ added ++ [total])%list. split; [|split].
      * rewrite <- !app_assoc. reflexivity.
      * repeat (apply Forall_app; split); try assumption. repeat constructor.
      * rewrite !requests_of_app. simpl. rewrite app_nil_r. exact Hr.
  - injection H as <- <-. exists (header ++ added)%list. split; [|split].
    + rewrite <- app_assoc. reflexivity.
    + apply Forall_app. split; assumption.
    + rewrite requests_of_app. simpl. exact Hr.
Qed.

(** ** The process *)


(** No request leaves without a token: every request of a run of [main]
    is a POST to the query URL of the configured database that carries the
    token of the environment, which is then not empty, and asks for 100
    records.  Without a token, or with an empty one, nothing is sent. *)
Theorem main_requests_carry_the_token (fuel : nat) (trace : list event) :
  main fmt env_token env_database_id fetch now stringify outputPath writeFileSync fuel = Some trace ->
  Forall (fun r => exists tok c,
            env_token = Some tok /\ tok <> ""
            /\ r = {| url := query_url (NOTION_DATABASE_ID env_database_id);
                      method := "POST";
                      authorization := "Bearer " ++ tok;
                      notion_version := "2022-06-28";
                      content_type := "application/json";
                      start_cursor := c;
                      page_size := 100 |})
         (requests_of trace).
Proof.
  unfold main. intros H.
  destruct env_token as [[|ch tok]|] eqn:Htok;
    [injection H as <-; constructor | | injection H as <-; constructor].
  rewrite <- Htok in H |- *.
  destruct (exportStores_run fmt env_token env_database_id fetch now fuel []) as [[run o]|] eqn:Hrun; [|discriminate H].
  destruct (exportStores_run_trace _ _ _ _ Hrun) as (added & Hadd & _ & Hr).
  simpl in Hadd. subst run.
  assert (Hreq : Forall (fun r => exists tok0 c,
                           env_token = Some tok0 /\ tok0 <> ""
                           /\ r = {| url := query_url (NOTION_DATABASE_ID env_database_id);
                                     method := "POST";
                                     authorization := "Bearer " ++ tok0;
                                     notion_version := "2022-06-28";
                                     content_type := "application/json";
                                     start_cursor := c;
                                     page_size := 100 |})
                        (requests_of added)).
  { eapply Forall_impl; [|exact Hr]. intros r [c ->].
    exists (String ch tok), c. split; [exact Htok|]. split; [discriminate|].
    unfold query. rewrite Htok. reflexivity. }
  destruct o as [doc|t].
  - destruct outputPath as [path|t].
    + destruct (writeFileSync path (stringify doc)); injection H as <-;
        rewrite !requests_of_app; simpl; rewrite !app_nil_r; exact Hreq.
    + injection H as <-. rewrite !requests_of_app. simpl. rewrite !app_nil_r.
      exact Hreq.
  - injection H as <-. rewrite !requests_of_app. simpl. rewrite !app_nil_r.
    exact Hreq.
Qed.

End RuntimeProperties.

Section AnalysisFetchProperties.

Variable fmt : float -> string.
Variable env_token : option string.
Variable fetch : list Request -> Request -> outcome Response.

Lemma analysis_fetch_loop_prefix (batches : list (list value * value)) :
  forall k trace pages cursor,
    List.length (requests_of trace) = k ->
    (forall j items c, nth_error batches j = Some (items, c) ->
                       serves fetch (k + j) items (JBool true) c) ->
    exists trace',
      (forall fuel,
          AnalysisRun.fetch_loop env_token fetch (List.length batches + fuel) trace pages cursor
          = AnalysisRun.fetch_loop env_token fetch fuel trace' (pages ++ List.concat (map fst batches))%list
              (last (map snd batches) cursor))
      /\ List.length (requests_of trace') = (k + List.length batches)%nat.
Proof.
  induction batches as [|[items c] rest IH]; intros k trace pages cursor Hk Hs.
  - exists trace. simpl. rewrite app_nil_r, Nat.add_0_r. auto.
  - destruct (Hs 0%nat items c eq_refl (requests_of trace)
                (query env_token DEFAULT_DATABASE_ID cursor))
      as (response & data & Hf & Hok & Hj & Hr & Hm & Hc);
      [rewrite Nat.add_0_r; exact Hk|].
    destruct (IH (S k)
                (trace ++ [Fetch (query env_token DEFAULT_DATABASE_ID cursor)])%list
                (pages ++ items)%list c) as (trace' & Hrun & Hlen).
    + rewrite requests_of_app, length_app. simpl. lia.
    + intros j items' c' Hn. replace (S k + j)%nat with (k + S j)%nat by lia.
      apply Hs. exact Hn.
    + exists trace'. split.
      * intros fuel. cbn [List.length Nat.add AnalysisRun.fetch_loop].
        rewrite Hf, Hj. rewrite (read_page_served _ _ _ _ Hr Hm Hc). cbn [truthy].
        rewrite Hrun. cbn [map fst snd List.concat].
        rewrite <- app_assoc, last_cons_default. reflexivity.
      * rewrite Hlen. simpl. lia.
Qed.

(** The fetcher of the analysis script collects the same pages as the
    fetcher of the export script whenever every response is a page of
    results. *)
Theorem analysis_fetchAllPages_collects_every_page
    (batches : list (list value * value)) (last_items : list value)
    (last_more last_cursor : value) (trace : list event) (fuel : nat) :
  requests_of trace = [] ->
  (forall j items c, nth_error batches j = Some (items, c) ->
                     serves fetch j items (JBool true) c) ->
  serves fetch (List.length batches) last_items last_more last_cursor ->
  truthy last_more = false ->
  (List.length batches < fuel)%nat ->
  exists trace',
    AnalysisRun.fetchAllPages env_token fetch fuel trace
    = Some (trace', Returned (List.concat (map fst batches) ++ last_items)%list)
    /\ List.length (requests_of trace') = S (List.length batches).
Proof.
  intros Ht Hs Hl Hm Hf.
  destruct (analysis_fetch_loop_prefix batches 0 trace [] JUndefined)
    as (trace1 & Hrun & Hlen).
  { rewrite Ht. reflexivity. }
  { intros j items c Hn. apply Hs. exact Hn. }
  replace fuel with (List.length batches + S (fuel - S (List.length batches)))%nat by lia.
  unfold AnalysisRun.fetchAllPages. rewrite Hrun.
  destruct (Hl (requests_of trace1)
              (query env_token DEFAULT_DATABASE_ID (last (map snd batches) JUndefined))
              Hlen)
    as (response & data & Hfe & Hok & Hj & Hr & Hmo & Hc).
  cbn [AnalysisRun.fetch_loop]. rewrite Hfe, Hj.
  rewrite (read_page_served _ _ _ _ Hr Hmo Hc), Hm.
  eexists. split; [reflexivity|].
  rewrite requests_of_app, length_app, Hlen. simpl. lia.
Qed.

(** The analysis script does not look at [response.ok]: when the API
    refuses a call and sends a JSON body without [results], the script
    ends on a [TypeError] raised while spreading [undefined], where the
    export script reports the status and the body of the refusal. *)
Theorem analysis_fetchAllPages_misreads_a_refusal
    (batches : list (list value * value)) (data : value)
    (trace : list event) (fuel : nat) :
  requests_of trace = [] ->
  (forall j items c, nth_error batches j = Some (items, c) ->
                     serves fetch j items (JBool true) c) ->
  (forall history request,
      List.length history = List.length batches ->
      exists response,
        fetch history request = Returned response
        /\ ok response = false
        /\ json response = Returned data) ->
  get data "results" = Ok JUndefined ->
  (List.length batches < fuel)%nat ->
  exists trace',
    AnalysisRun.fetchAllPages env_token fetch fuel trace
    = Some (trace', Raised (Uncaught TypeError)).
Proof.
  intros Ht Hs Hl Hd Hf.
  destruct (analysis_fetch_loop_prefix batches 0 trace [] JUndefined)
    as (trace1 & Hrun & Hlen).
  { rewrite Ht. reflexivity. }
  { intros j items c Hn. apply Hs. exact Hn. }
  replace fuel with (List.length batches + S (fuel - S (List.length batches)))%nat by lia.
  unfold AnalysisRun.fetchAllPages. rewrite Hrun.
  destruct (Hl (requests_of trace1)
              (query env_token DEFAULT_DATABASE_ID (last (map snd batches) JUndefined))
              Hlen)
    as (response & Hfe & _ & Hj).
  cbn [AnalysisRun.fetch_loop]. rewrite Hfe, Hj.
  unfold read_page. rewrite Hd. simpl.
  eexists. reflexivity.
Qed.

End AnalysisFetchProperties.

(** ** Closed instances of the further properties *)

Lemma getPlainText_joins_witness :
  Forall2 (fun item s => get item "plain_text" = Ok (JStr s))
    [fragment "1 Main"; fragment " St"] ["1 Main"; " St"]
  /\ getPlainText plain_number_to_string (JArr [fragment "1 Main"; fragment " St"])
     = Ok (JStr "1 Main St").
Proof.
  split; [repeat constructor|].
  apply (getPlainText_joins_the_fragments plain_number_to_string
           [fragment "1 Main"; fragment " St"] ["1 Main"; " St"]).
  repeat constructor.
Defined.

Lemma getRollupDate_throws_witness :
  In "Last Order Date" rollup_properties
  /\ (returns (getRollupDate bare_rollup_props "Last Order Date") = false <->
      nullish bare_rollup_props = true
      \/ (strict_eq_str
            (opt_get (opt_get bare_rollup_props "Last Order Date") "type") "rollup"
          = true
          /\ nullish (opt_get (opt_get bare_rollup_props "Last Order Date") "rollup")
             = true)).
Proof.
  split; [left; reflexivity|].
  apply (getRollupDate_throws_exactly bare_rollup_props "Last Order Date").
  left; reflexivity.
Defined.

Lemma getRollupDate_yields_witness :
  In "SMACK .5G" rollup_properties
  /\ ((getRollupDate (JObj (acme_props "Customer")) "SMACK .5G" = Ok (JStr "2023-01-01")
       /\ JStr "2023-01-01" <> JNull) <->
      (strict_eq_str
         (opt_get (opt_get (JObj (acme_props "Customer")) "SMACK .5G") "type")
         "rollup" = true
       /\ strict_eq_str
            (opt_get (opt_get (opt_get (JObj (acme_props "Customer")) "SMACK .5G")
                        "rollup") "type")
            "date" = true
       /\ Analysis.rollup_start (opt_get (JObj (acme_props "Customer")) "SMACK .5G")
          = JStr "2023-01-01"
       /\ truthy (JStr "2023-01-01") = true)).
Proof.
  assert (H : In "SMACK .5G" rollup_properties) by (simpl; auto 10).
  split; [exact H|].
  apply (getRollupDate_yields_the_start (JObj (acme_props "Customer")) "SMACK .5G"
           (JStr "2023-01-01")).
  exact H.
Defined.

Lemma guarded_accessors_witness :
  nullish (JStr "not a property bag") = false
  /\ returns (getStatus (JStr "not a property bag")) = true
  /\ returns (getMapLocation (JStr "not a property bag")) = true.
Proof.
  split; [reflexivity|].
  apply (guarded_accessors_never_throw (JStr "not a property bag")). reflexivity.
Defined.

Lemma products_follow_the_table_witness :
  getProducts (JObj (acme_props "Customer")) = Ok ["O-Yeah"; "SMACK"]
  /\ subseq ["O-Yeah"; "SMACK"] display_names
  /\ (List.length ["O-Yeah"; "SMACK"] <= 5)%nat.
Proof.
  split; [reflexivity|].
  apply (products_follow_the_table (JObj (acme_props "Customer"))). reflexivity.
Defined.

Lemma transformPage_reads_witness :
  get acme_page "properties" = Ok (JObj (acme_props "Customer"))
  /\ get acme_page_with_notes "properties"
     = Ok (JObj (("Notes", rich_text_prop "call before noon")
                 :: acme_props "Customer"))
  /\ get acme_page "id" = get acme_page_with_notes "id"
  /\ (forall key, In key read_properties ->
        lookup key (acme_props "Customer")
        = lookup key (("Notes", rich_text_prop "call before noon")
                      :: acme_props "Customer"))
  /\ transformPage plain_number_to_string acme_page
     = transformPage plain_number_to_string acme_page_with_notes.
Proof.
  assert (H : forall key, In key read_properties ->
                lookup key (acme_props "Customer")
                = lookup key (("Notes", rich_text_prop "call before noon")
                              :: acme_props "Customer")).
  { intros key Hin. simpl in Hin.
    repeat (destruct Hin as [<- | Hin]; [reflexivity|]). destruct Hin. }
  split; [reflexivity|]. split; [reflexivity|]. split; [reflexivity|].
  split; [exact H|].
  apply (transformPage_reads_only_its_properties plain_number_to_string
           acme_page acme_page_with_notes (acme_props "Customer")
           (("Notes", rich_text_prop "call before noon") :: acme_props "Customer"));
    [reflexivity | reflexivity | reflexivity | exact H].
Defined.

Lemma complete_customer_witness :
  exportStores plain_number_to_string [lead_page; city_only_page] "2024-03-01T00:00:00.000Z"
  = Ok {| generated := "2024-03-01T00:00:00.000Z";
          count := 1;
          stores := [outputStore city_only_store] |}
  /\ In city_only_page [lead_page; city_only_page]
  /\ (exists props,
        get city_only_page "properties" = Ok props
        /\ getTitle plain_number_to_string props = Ok (JStr "Corner Shop")
        /\ getStatus props = Ok (JStr "Customer")
        /\ getMapLocation props
           = Ok (JObj [("lat", JNum 37.75); ("lng", JNum (-122.25))]))
  /\ In "Customer" VALID_ACCOUNT_STATUSES
  /\ truthy (JNum 37.75) = true
  /\ truthy (JNum (-122.25)) = true
  /\ exists s,
       transformPage plain_number_to_string city_only_page = Ok s
       /\ out_name (outputStore s) = JStr "Corner Shop"
       /\ out_lat (outputStore s) = JNum 37.75
       /\ out_lng (outputStore s) = JNum (-122.25)
       /\ In (outputStore s) [outputStore city_only_store].
Proof.
  split; [reflexivity|]. split; [right; left; reflexivity|].
  split; [eexists; repeat split; reflexivity|].
  split; [left; reflexivity|]. split; [reflexivity|]. split; [reflexivity|].
  apply (complete_customer_is_published plain_number_to_string
           [lead_page; city_only_page] "2024-03-01T00:00:00.000Z"
           {| generated := "2024-03-01T00:00:00.000Z";
              count := 1;
              stores := [outputStore city_only_store] |}
           city_only_page
           (JObj [ ("Dispensary Name", title_prop "Corner Shop");
                   ("City", rich_text_prop "Oakland");
                   ("Account Status", status_prop "Customer");
                   ("Map Location", place_prop 37.75 (-122.25)) ])
           "Corner Shop" "Customer" 37.75 (-122.25));
    try reflexivity.
  - right; left; reflexivity.
  - left; reflexivity.
Defined.

Lemma consecutive_batches_witness :
  exportStores plain_number_to_string [acme_page] "2024-03-01T00:00:00.000Z"
  = Ok (acme_document "2024-03-01T00:00:00.000Z")
  /\ exportStores plain_number_to_string [lead_page; city_only_page]
       "2024-03-01T00:00:00.000Z"
     = Ok {| generated := "2024-03-01T00:00:00.000Z";
             count := 1;
             stores := [outputStore city_only_store] |}
  /\ exportStores plain_number_to_string
       ([acme_page] ++ [lead_page; city_only_page]) "2024-03-01T00:00:00.000Z"
     = Ok {| generated := "2024-03-01T00:00:00.000Z";
             count := 2;
             stores := [outputStore (acme_store "p-acme" "Customer");
                        outputStore city_only_store] |}.
Proof.
  split; [reflexivity|]. split; [reflexivity|].
  apply (exportStores_of_consecutive_batches plain_number_to_string
           [acme_page] [lead_page; city_only_page] "2024-03-01T00:00:00.000Z"
           (acme_document "2024-03-01T00:00:00.000Z")
           {| generated := "2024-03-01T00:00:00.000Z";
              count := 1;
              stores := [outputStore city_only_store] |});
    reflexivity.
Defined.

Lemma exportStores_twice_witness :
  exportStores plain_number_to_string [acme_page; lead_page] "2024-03-01T00:00:00.000Z"
  = Ok (acme_document "2024-03-01T00:00:00.000Z")
  /\ exportStores plain_number_to_string [acme_page; lead_page] "2024-03-02T00:00:00.000Z"
     = Ok (acme_document "2024-03-02T00:00:00.000Z").
Proof.
  split; [reflexivity|].
  apply (exportStores_twice plain_number_to_string [acme_page; lead_page]
           "2024-03-01T00:00:00.000Z" "2024-03-02T00:00:00.000Z"
           (acme_document "2024-03-01T00:00:00.000Z")).
  reflexivity.
Defined.

Lemma count_bound_witness :
  exportStores plain_number_to_string [acme_page; lead_page] "2024-03-01T00:00:00.000Z"
  = Ok (acme_document "2024-03-01T00:00:00.000Z")
  /\ (count (acme_document "2024-03-01T00:00:00.000Z")
      <= List.length [acme_page; lead_page])%nat.
Proof.
  split; [reflexivity|].
  apply (exportStores_count_bound plain_number_to_string [acme_page; lead_page]
           "2024-03-01T00:00:00.000Z").
  reflexivity.
Defined.

Lemma report_counters_witness :
  Analysis.main plain_number_to_string date_only_time limit_2024_01_01
    [acme_page; lead_page; zero_page]
  = Ok {| Analysis.withCoords := 3;
          Analysis.withOrders := 2;
          Analysis.customerWithCoords := 2;
          Analysis.recentCustomers := [] |}
  /\ (0 <= 2)%nat /\ (2 <= 3)%nat
  /\ (3 <= List.length [acme_page; lead_page; zero_page])%nat
  /\ (2 <= List.length [acme_page; lead_page; zero_page])%nat.
Proof.
  split; [reflexivity|].
  apply (report_counters_are_ordered plain_number_to_string date_only_time
           limit_2024_01_01 [acme_page; lead_page; zero_page]
           {| Analysis.withCoords := 3;
              Analysis.withOrders := 2;
              Analysis.customerWithCoords := 2;
              Analysis.recentCustomers := [] |}).
  reflexivity.
Defined.

Lemma recent_customers_entries_witness :
  Analysis.main plain_number_to_string date_only_time limit_2023_01_01 [acme_page]
  = Ok {| Analysis.withCoords := 1;
          Analysis.withOrders := 1;
          Analysis.customerWithCoords := 1;
          Analysis.recentCustomers :=
            [Analysis.entry_of (JObj (acme_props "Customer"))] |}
  /\ (exists x, Analysis.rc_lat (Analysis.entry_of (JObj (acme_props "Customer")))
                = JNum x)
  /\ truthy (Analysis.rc_lastOrder (Analysis.entry_of (JObj (acme_props "Customer"))))
     = true
  /\ truthy (Analysis.rc_name (Analysis.entry_of (JObj (acme_props "Customer"))))
     = true.
Proof.
  split; [reflexivity|].
  apply (recent_customers_are_located_and_dated plain_number_to_string
           date_only_time limit_2023_01_01 [acme_page]
           {| Analysis.withCoords := 1;
              Analysis.withOrders := 1;
              Analysis.customerWithCoords := 1;
              Analysis.recentCustomers :=
                [Analysis.entry_of (JObj (acme_props "Customer"))] |});
    [reflexivity | left; reflexivity].
Defined.

Lemma only_customers_witness :
  get lead_page "properties" = Ok (JObj (acme_props "Lead"))
  /\ Analysis.analyzePage plain_number_to_string date_only_time limit_2023_01_01
       Analysis.initial lead_page
     = Ok {| Analysis.withCoords := 1;
             Analysis.withOrders := 1;
             Analysis.customerWithCoords := 0;
             Analysis.recentCustomers := [] |}
  /\ strict_eq_str (Analysis.status_of (JObj (acme_props "Lead"))) "Customer" = false
  /\ 0%nat = Analysis.customerWithCoords Analysis.initial
  /\ [] = Analysis.recentCustomers Analysis.initial.
Proof.
  split; [reflexivity|]. split; [reflexivity|]. split; [reflexivity|].
  apply (only_customers_are_listed plain_number_to_string date_only_time
           limit_2023_01_01 Analysis.initial
           {| Analysis.withCoords := 1;
              Analysis.withOrders := 1;
              Analysis.customerWithCoords := 0;
              Analysis.recentCustomers := [] |}
           lead_page (JObj (acme_props "Lead")));
    reflexivity.
Defined.

(** ** Closed instances of the run-time properties *)

Lemma scripted_serves (script : list Response) (k : nat) (body : string)
    (items : list value) (more : bool) (cursor : value) :
  nth_error script k = Some (page_response body items more cursor) ->
  serves (scripted script) k items (JBool more) cursor.
Proof.
  intros H history request Hk. unfold scripted. rewrite Hk, H.
  eexists. eexists. repeat split; reflexivity.
Qed.

Lemma scripted_refuses (script : list Response) (k : nat) (response : Response)
    (body : string) :
  nth_error script k = Some response ->
  ok response = false ->
  text response = Returned body ->
  refuses (scripted script) k (http_status response) body.
Proof.
  intros H Hok Ht history request Hk. unfold scripted. rewrite Hk, H.
  exists response. auto.
Qed.

Lemma first_batch_served (script : list Response) (body : string) :
  nth_error script 0 = Some (page_response body [acme_page; lead_page] true
                               (JStr "cursor-1")) ->
  forall j items c,
    nth_error [([acme_page; lead_page], JStr "cursor-1")] j = Some (items, c) ->
    serves (scripted script) j items (JBool true) c.
Proof.
  intros H j items c Hn. destruct j as [|[|j]]; simpl in Hn; try discriminate Hn.
  injection Hn as <- <-. eapply scripted_serves. exact H.
Qed.

Lemma fetchAllPages_collects_witness :
  requests_of [] = []
  /\ (forall j items c,
        nth_error [([acme_page; lead_page], JStr "cursor-1")] j = Some (items, c) ->
        serves (scripted two_pages) j items (JBool true) c)
  /\ serves (scripted two_pages) 1 [city_only_page] (JBool false) JNull
  /\ truthy (JBool false) = false
  /\ (1 < 5)%nat
  /\ exists trace',
       fetchAllPages status_number_to_string sample_token None (scripted two_pages) 5 []
       = Some (trace', Returned [acme_page; lead_page; city_only_page])
       /\ map start_cursor (requests_of trace') = [JUndefined; JStr "cursor-1"].
Proof.
  split; [reflexivity|].
  split; [apply (first_batch_served two_pages "{...}"); reflexivity|].
  split; [apply (scripted_serves two_pages 1 "{...}"); reflexivity|].
  split; [reflexivity|]. split; [lia|].
  apply (fetchAllPages_collects_every_page status_number_to_string sample_token None
           (scripted two_pages) [([acme_page; lead_page], JStr "cursor-1")]
           [city_only_page] (JBool false) JNull [] 5).
  - reflexivity.
  - apply (first_batch_served two_pages "{...}"); reflexivity.
  - apply (scripted_serves two_pages 1 "{...}"); reflexivity.
  - reflexivity.
  - simpl; lia.
Defined.

Lemma fetchAllPages_refusal_witness :
  requests_of [] = []
  /\ (forall j items c,
        nth_error [([acme_page; lead_page], JStr "cursor-1")] j = Some (items, c) ->
        serves (scripted page_then_refusal) j items (JBool true) c)
  /\ refuses (scripted page_then_refusal) 1 401 "API token is invalid."
  /\ (1 < 5)%nat
  /\ exists trace',
       fetchAllPages status_number_to_string sample_token None
         (scripted page_then_refusal) 5 []
       = Some (trace',
               Raised (ApiError "Notion API error: 401 - API token is invalid."))
       /\ List.length (requests_of trace') = 2%nat.
Proof.
  split; [reflexivity|].
  split; [apply (first_batch_served page_then_refusal "{...}"); reflexivity|].
  split; [apply (scripted_refuses page_then_refusal 1 refusal); reflexivity|].
  split; [lia|].
  apply (fetchAllPages_fails_on_a_refusal status_number_to_string sample_token None
           (scripted page_then_refusal) [([acme_page; lead_page], JStr "cursor-1")]
           401 "API token is invalid." [] 5).
  - reflexivity.
  - apply (first_batch_served page_then_refusal "{...}"); reflexivity.
  - apply (scripted_refuses page_then_refusal 1 refusal); reflexivity.
  - simpl; lia.
Defined.


(** With a disk that is full the run prints the document, calls
    [writeFileSync] and ends on [process.exit(1)]. *)
Example main_on_a_full_disk :
  main status_number_to_string sample_token None (scripted two_pages)
    "2024-03-01T00:00:00.000Z" sample_stringify (Returned sample_path) disk_full 5
  = Some (sample_export_trace
          ++ [ConsoleLog (newline ++ "--- OUTPUT START ---");
              ConsoleLog "{ generated: 2024-03-01T00:00:00.000Z, count: 2 }";
              ConsoleLog "--- OUTPUT END ---";
              WriteFile sample_path "{ generated: 2024-03-01T00:00:00.000Z, count: 2 }";
              ConsoleErrorMessage "Export failed:"
                (Rejected "ENOSPC: no space left on device");
              Exit 1])%list.
Proof. reflexivity. Qed.

Lemma main_requests_witness :
  main status_number_to_string sample_token None (scripted two_pages)
    "2024-03-01T00:00:00.000Z" sample_stringify (Returned sample_path) disk_ok 5
  = Some sample_main_trace
  /\ Forall (fun r => exists tok c,
               sample_token = Some tok /\ tok <> ""
               /\ r = {| url := query_url (NOTION_DATABASE_ID None);
                         method := "POST";
                         authorization := "Bearer " ++ tok;
                         notion_version := "2022-06-28";
                         content_type := "application/json";
                         start_cursor := c;
                         page_size := 100 |})
            (requests_of sample_main_trace).
Proof.
  split; [reflexivity|].
  apply (main_requests_carry_the_token status_number_to_string sample_token None
           (scripted two_pages) "2024-03-01T00:00:00.000Z" sample_stringify
           (Returned sample_path) disk_ok 5 sample_main_trace).
  reflexivity.
Defined.

Lemma analysis_fetchAllPages_collects_witness :
  requests_of [] = []
  /\ (forall j items c,
        nth_error [([acme_page; lead_page], JStr "cursor-1")] j = Some (items, c) ->
        serves (scripted two_pages) j items (JBool true) c)
  /\ serves (scripted two_pages) 1 [city_only_page] (JBool false) JNull
  /\ truthy (JBool false) = false
  /\ (1 < 5)%nat
  /\ exists trace',
       AnalysisRun.fetchAllPages sample_token (scripted two_pages) 5 []
       = Some (trace', Returned [acme_page; lead_page; city_only_page])
       /\ List.length (requests_of trace') = 2%nat.
Proof.
  split; [reflexivity|].
  split; [apply (first_batch_served two_pages "{...}"); reflexivity|].
  split; [apply (scripted_serves two_pages 1 "{...}"); reflexivity|].
  split; [reflexivity|]. split; [lia|].
  apply (analysis_fetchAllPages_collects_every_page sample_token
           (scripted two_pages) [([acme_page; lead_page], JStr "cursor-1")]
           [city_only_page] (JBool false) JNull [] 5).
  - reflexivity.
  - apply (first_batch_served two_pages "{...}"); reflexivity.
  - apply (scripted_serves two_pages 1 "{...}"); reflexivity.
  - reflexivity.
  - simpl; lia.
Defined.

Lemma analysis_misreads_witness :
  requests_of [] = []
  /\ (forall j items c,
        nth_error [([acme_page; lead_page], JStr "cursor-1")] j = Some (items, c) ->
        serves (scripted page_then_refusal) j items (JBool true) c)
  /\ (forall history request,
        List.length history = 1%nat ->
        exists response,
          scripted page_then_refusal history request = Returned response
          /\ ok response = false
          /\ json response = Returned refusal_body)
  /\ get refusal_body "results" = Ok JUndefined
  /\ (1 < 5)%nat
  /\ exists trace',
       AnalysisRun.fetchAllPages sample_token (scripted page_then_refusal) 5 []
       = Some (trace', Raised (Uncaught TypeError)).
Proof.
  assert (H : forall history request,
             List.length history = 1%nat ->
             exists response,
               scripted page_then_refusal history request = Returned response
               /\ ok response = false
               /\ json response = Returned refusal_body).
  { intros history request Hk. unfold scripted. rewrite Hk.
    exists refusal. repeat split; reflexivity. }
  split; [reflexivity|].
  split; [apply (first_batch_served page_then_refusal "{...}"); reflexivity|].
  split; [exact H|]. split; [reflexivity|]. split; [lia|].
  apply (analysis_fetchAllPages_misreads_a_refusal sample_token
           (scripted page_then_refusal) [([acme_page; lead_page], JStr "cursor-1")]
           refusal_body [] 5).
  - reflexivity.
  - apply (first_batch_served page_then_refusal "{...}"); reflexivity.
  - exact H.
  - reflexivity.
  - simpl; lia.
Defined.

Lemma no_page_limit_witness :
  (forall k, exists items c, serves endless k items (JBool true) c)
  /\ fetchAllPages status_number_to_string sample_token None endless 1000 [] = None.
Proof.
  assert (H : forall k, exists items c, serves endless k items (JBool true) c).
  { intros k. exists [acme_page], (JStr "again"). intros history request _.
    eexists. eexists. repeat split; reflexivity. }
  split; [exact H|].
  apply (fetchAllPages_has_no_page_limit status_number_to_string sample_token None
           endless 1000 []).
  exact H.
Defined.
